(** * Atmosphere: image cleaning ([service/imaging/clean.py]) and
      instance metadata updates ([core/models/instance.py])

    A shallow embedding of the two Python modules and the properties their
    specification states about them.

    - [Py]       : the fragment of Python the two modules use: objects,
                   exceptions, truthiness, a state-and-exception monad.
    - [Common]   : the mounted image (a finite map from paths to nodes), the
                   log, and the primitives of [service/imaging/common.py].
    - [Clean]    : [remove_user_data], [remove_atmo_data],
                   [remove_vm_specific_data] and [_perform_cleaning].
    - [Instance] : [update_instance_metadata] over a driver connection.
    - [Esh], [CoreInstance] : the [Instance] model, [findInstance],
                   [convertEshInstance], [set_instance_from_metadata] and
                   [createInstance] over a table of rows.
    - [CleanProofs], [InstanceProofs] : the properties.
    - [CoreInstanceProofs], [InstanceExtras], [CleanExtras] : further
                   properties of the same code. *)

From Stdlib Require Import String Ascii List Bool ZArith Lia.
From stdpp Require Import base option list gmap strings fin_maps.

Local Open Scope string_scope.
Set Warnings "-register-all".

(* ===================================================================== *)
(** ** Python fragment *)
(* ===================================================================== *)

Module Py.

(** Python values that cross a function boundary in the two modules. *)
Inductive pyobj : Type :=
| PyNone
| PyBool (b : bool)
| PyInt (z : Z)
| PyStr (s : string)
| PyList (items : list pyobj)
| PyDict (items : list (string * pyobj)).

(** Raised objects. All of them are instances of [Exception], the only ones
    an [except Exception] clause sees; [DriverError] stands for whatever
    class a cloud driver raises. *)
Inductive exn : Type :=
| Exception (msg : string)
| TypeError (msg : string)
| AttributeError (msg : string)
| DriverError (cls : string) (msg : string).

(** [e.message] *)
Definition message (e : exn) : string :=
  match e with
  | Exception m | TypeError m | AttributeError m | DriverError _ m => m
  end.

(** Truth value of an object, as [if obj:] tests it. *)
Definition truthy (o : pyobj) : bool :=
  match o with
  | PyNone => false
  | PyBool b => b
  | PyInt z => negb (Z.eqb z 0)
  | PyStr s => negb (String.eqb s "")
  | PyList l => match l with [] => false | _ => true end
  | PyDict d => match d with [] => false | _ => true end
  end.

(** [d.get(key)]: the value, or [None] when the key is absent. *)
Fixpoint dict_get (d : list (string * pyobj)) (key : string) : pyobj :=
  match d with
  | [] => PyNone
  | (k, v) :: rest => if String.eqb k key then v else dict_get rest key
  end.

(** [key in d] *)
Fixpoint dict_has (d : list (string * pyobj)) (key : string) : bool :=
  match d with
  | [] => false
  | (k, _) :: rest => String.eqb k key || dict_has rest key
  end.

(** [needle in hay] on strings. *)
Fixpoint contains (needle hay : string) : bool :=
  String.prefix needle hay ||
  match hay with
  | EmptyString => false
  | String _ rest => contains needle rest
  end.

(** How a call ends. *)
Inductive outcome (A : Type) : Type :=
| Returned (a : A)
| Raised (e : exn).
Arguments Returned {A} a.
Arguments Raised {A} e.

(** A computation over a state [S] that returns or raises. *)
Definition py (S A : Type) : Type := S -> outcome A * S.

Definition ret {S A} (a : A) : py S A := fun s => (Returned a, s).

Definition raise {S A} (e : exn) : py S A := fun s => (Raised e, s).

Definition bind {S A B} (c : py S A) (k : A -> py S B) : py S B :=
  fun s =>
    match c s with
    | (Returned a, s') => k a s'
    | (Raised e, s') => (Raised e, s')
    end.

(** Reading the state without changing it. *)
Definition gets {S A} (f : S -> A) : py S A := fun s => (Returned (f s), s).

(** [try: body  except Exception, e: handler e] *)
Definition try_except {S A} (body : py S A) (handler : exn -> py S A) : py S A :=
  fun s =>
    match body s with
    | (Returned a, s') => (Returned a, s')
    | (Raised e, s') => handler e s'
    end.

(** Calling a tuple object: it is not callable, so the call never returns a
    value, whatever type the context expects. *)
Definition call_tuple {S A T} (callee args : T) : py S A :=
  raise (TypeError "'tuple' object is not callable").

End Py.

Import Py.

Declare Scope py_scope.
Delimit Scope py_scope with py.
Notation "x <- c ;; k" := (bind c (fun x => k))
  (at level 100, c at next level, right associativity) : py_scope.
Notation "c ;;; k" := (bind c (fun _ => k))
  (at level 100, right associativity) : py_scope.

Local Open Scope py_scope.

(* ===================================================================== *)
(** ** The mounted image and the primitives of service/imaging/common.py *)
(* ===================================================================== *)

(** The regular-expression engine and the glob matcher are libraries outside
    the repository: [re_match pattern line] says whether the whole line
    matches, [glob_match pattern path] whether a path is an expansion of the
    pattern. *)
Class Matchers : Type := {
  re_match : string -> string -> bool;
  glob_match : string -> string -> bool
}.

Module Common.

(** An entry of the mounted tree. A regular file carries its mode (may it be
    written?) and its content as lines. *)
Inductive node : Type :=
| Dir
| Device
| File (writable : bool) (content : list string).

Inductive op_kind : Type :=
| OpRemove | OpOverwrite | OpRemoveLine | OpReplaceLine | OpRemoveMultiline.

Inductive failure_cause : Type :=
| PermissionDenied
| NotARegularFile.

(** A structured log line: an operation (kind, target, pattern, dry-run
    flag), a per-file failure, or an unterminated range. *)
Inductive log_line : Type :=
| LogOp (kind : op_kind) (target : string) (pattern : option string) (dry_run : bool)
| LogFailure (kind : op_kind) (target : string) (cause : failure_cause)
| LogUnterminated (target : string) (start_marker : string).

(** One invocation of a primitive, with the arguments it received. *)
Inductive call : Type :=
| call_remove_files (rm_files : list string) (mount_point : string) (dry_run : bool)
| call_overwrite_files (overwrite_list : list string) (mount_point : string) (dry_run : bool)
| call_remove_line_in_files (remove_line_files : list (string * string))
    (mount_point : string) (dry_run : bool)
| call_replace_line_in_files (replace_line_files : list (string * string * string))
    (mount_point : string) (dry_run : bool)
| call_remove_multiline_in_files (multiline_delete_files : list (string * string * string))
    (mount_point : string) (dry_run : bool).

(** What a cleaning run can observe and change: the host's mount table, the
    tree (keyed by full path), the log, and the primitives invoked so far. *)
Record World : Type := {
  mount_table : list string;
  fs : gmap string node;
  log : list log_line;
  calls : list call
}.

Definition with_fs (m : gmap string node) (w : World) : World :=
  {| mount_table := mount_table w; fs := m; log := log w; calls := calls w |}.

Definition add_log (ls : list log_line) (w : World) : World :=
  {| mount_table := mount_table w; fs := fs w; log := log w ++ ls; calls := calls w |}.

Definition record_call (c : call) (w : World) : World :=
  {| mount_table := mount_table w; fs := fs w; log := log w; calls := calls w ++ [c] |}.

(** Modelled from the spec: check_mounted of service/imaging/common.py is not
    under src/. A pure query of the mount table for an exact or prefix match
    on the path. *)
Definition check_mounted (path : string) (w : World) : bool :=
  existsb (String.prefix path) (mount_table w).

(** Modelled from the spec: how a relative spec is placed under the mount
    root; the empty relative path names the root itself. *)
Definition build_path (mount_point rel : string) : string :=
  if String.eqb rel "" then mount_point else mount_point +:+ "/" +:+ rel.

(** The directories above a path: its prefixes that end before a [/]. *)
Fixpoint parents_from (seen rest : string) : list string :=
  match rest with
  | EmptyString => []
  | String c rest' =>
      let above := parents_from (seen +:+ String c EmptyString) rest' in
      if Ascii.eqb c "/" then seen :: above else above
  end.

Definition parents (path : string) : list string := parents_from "" path.

Section Primitives.
Context `{Matchers}.

(** An entry of the tree that the glob expands to. *)
Definition matched (g : string) (m : gmap string node) (d : string) : bool :=
  glob_match g d && bool_decide (is_Some (m !! d)).

(** A path goes when the glob expands to it or to a directory above it. *)
Definition victim (g : string) (m : gmap string node) (p : string) : bool :=
  existsb (matched g m) (p :: parents p).

(** Recursive deletion of every expansion of one glob. *)
Definition rm_glob (g : string) (m : gmap string node) : gmap string node :=
  filter (fun kv => victim g m kv.1 = false) m.

(** The entries one glob resolves to, for the log. *)
Definition expansions (g : string) (m : gmap string node) : list string :=
  List.filter (glob_match g) (map fst (map_to_list m)).

(** Rewriting the content of a writable regular file; every other node is
    left as it is, mode included. *)
Definition edit_node (f : list string -> list string) (n : node) : node :=
  match n with
  | File true ls => File true (f ls)
  | other => other
  end.

(** The log line of one attempted edit. *)
Definition edit_log (kind : op_kind) (pattern : option string) (path : string)
    (dry_run : bool) (n : node) : log_line :=
  if dry_run then LogOp kind path pattern true
  else match n with
       | File true _ => LogOp kind path pattern false
       | File false _ => LogFailure kind path PermissionDenied
       | Dir | Device => LogFailure kind path NotARegularFile
       end.

(** One edit of one target: nothing when the target is absent; in a dry run
    the intent is logged; otherwise the file is rewritten, or the failure is
    logged and the run goes on. [notes] are further log lines computed from
    the content. *)
Definition edit_step (kind : op_kind) (pattern : option string)
    (f : list string -> list string) (notes : string -> list string -> list log_line)
    (path : string) (dry_run : bool) (w : World) : World :=
  match fs w !! path with
  | None => w
  | Some n =>
      let extra := match n with File _ ls => notes path ls | _ => [] end in
      let w' := add_log (edit_log kind pattern path dry_run n :: extra) w in
      if dry_run then w' else with_fs (alter (edit_node f) path (fs w')) w'
  end.

Definition no_notes (path : string) (ls : list string) : list log_line := [].

(** Lines of a file that stay when the matching ones are dropped. *)
Definition drop_matching (pattern : string) (ls : list string) : list string :=
  List.filter (fun l => negb (re_match pattern l)) ls.

(** Every matching line becomes the replacement, whole. *)
Definition replace_matching (pattern replacement : string) (ls : list string) : list string :=
  map (fun l => if re_match pattern l then replacement else l) ls.

(** Range deletion: [deleting] says whether a start marker is open. The start
    line, the lines after it and the first later end line go; an open range
    runs to the end of the file. *)
Fixpoint delete_ranges (start_marker end_marker : string) (deleting : bool)
    (ls : list string) : list string :=
  match ls with
  | [] => []
  | l :: rest =>
      if deleting then
        delete_ranges start_marker end_marker (negb (re_match end_marker l)) rest
      else if re_match start_marker l then
        delete_ranges start_marker end_marker true rest
      else l :: delete_ranges start_marker end_marker false rest
  end.

(** Is a range still open at the end of the file? *)
Fixpoint unterminated (start_marker end_marker : string) (deleting : bool)
    (ls : list string) : bool :=
  match ls with
  | [] => deleting
  | l :: rest =>
      if deleting then unterminated start_marker end_marker (negb (re_match end_marker l)) rest
      else unterminated start_marker end_marker (re_match start_marker l) rest
  end.

Definition range_notes (start_marker end_marker : string) (path : string)
    (ls : list string) : list log_line :=
  if unterminated start_marker end_marker false ls
  then [LogUnterminated path start_marker] else [].

(** *** The five stages, one spec at a time *)

Definition remove_step (mount_point : string) (dry_run : bool) (w : World)
    (rm_file : string) : World :=
  let g := build_path mount_point rm_file in
  let w' := add_log (map (fun d => LogOp OpRemove d (Some rm_file) dry_run)
                         (expansions g (fs w))) w in
  if dry_run then w' else with_fs (rm_glob g (fs w')) w'.

Definition overwrite_step (mount_point : string) (dry_run : bool) (w : World)
    (rel : string) : World :=
  edit_step OpOverwrite None (fun _ => []) no_notes
            (build_path mount_point rel) dry_run w.

Definition remove_line_step (mount_point : string) (dry_run : bool) (w : World)
    (spec : string * string) : World :=
  let '(pattern, rel) := spec in
  edit_step OpRemoveLine (Some pattern) (drop_matching pattern) no_notes
            (build_path mount_point rel) dry_run w.

Definition replace_line_step (mount_point : string) (dry_run : bool) (w : World)
    (spec : string * string * string) : World :=
  let '(pattern, replacement, rel) := spec in
  edit_step OpReplaceLine (Some pattern) (replace_matching pattern replacement) no_notes
            (build_path mount_point rel) dry_run w.

Definition remove_multiline_step (mount_point : string) (dry_run : bool) (w : World)
    (spec : string * string * string) : World :=
  let '(start_marker, end_marker, rel) := spec in
  edit_step OpRemoveMultiline (Some start_marker)
            (delete_ranges start_marker end_marker false)
            (range_notes start_marker end_marker)
            (build_path mount_point rel) dry_run w.

(** *** The primitives
    Modelled from the spec: the five functions of service/imaging/common.py
    are not under src/. Each walks its list in order, never raises, and
    returns nothing. *)

Definition remove_files (rm_files : list string) (mount_point : string)
    (dry_run : bool) : py World pyobj :=
  fun w => (Returned PyNone,
            fold_left (remove_step mount_point dry_run) rm_files
                      (record_call (call_remove_files rm_files mount_point dry_run) w)).

Definition overwrite_files (overwrite_list : list string) (mount_point : string)
    (dry_run : bool) : py World pyobj :=
  fun w => (Returned PyNone,
            fold_left (overwrite_step mount_point dry_run) overwrite_list
                      (record_call (call_overwrite_files overwrite_list mount_point dry_run) w)).

Definition remove_line_in_files (remove_line_files : list (string * string))
    (mount_point : string) (dry_run : bool) : py World pyobj :=
  fun w => (Returned PyNone,
            fold_left (remove_line_step mount_point dry_run) remove_line_files
                      (record_call
                         (call_remove_line_in_files remove_line_files mount_point dry_run) w)).

Definition replace_line_in_files (replace_line_files : list (string * string * string))
    (mount_point : string) (dry_run : bool) : py World pyobj :=
  fun w => (Returned PyNone,
            fold_left (replace_line_step mount_point dry_run) replace_line_files
                      (record_call
                         (call_replace_line_in_files replace_line_files mount_point dry_run) w)).

Definition remove_multiline_in_files
    (multiline_delete_files : list (string * string * string))
    (mount_point : string) (dry_run : bool) : py World pyobj :=
  fun w => (Returned PyNone,
            fold_left (remove_multiline_step mount_point dry_run) multiline_delete_files
                      (record_call
                         (call_remove_multiline_in_files
                            multiline_delete_files mount_point dry_run) w)).

End Primitives.

End Common.

Import Common.

(* ===================================================================== *)
(** ** service/imaging/clean.py *)
(* ===================================================================== *)

Module Clean.

Section Clean.
Context `{Matchers}.

(** Runs the five primitives; falls off its end, so it returns [None]. *)
Definition _perform_cleaning (mounted_path : string) (rm_files : list string)
    (remove_line_files : list (string * string)) (overwrite_list : list string)
    (replace_line_files : list (string * string * string))
    (multiline_delete_files : list (string * string * string))
    (dry_run : bool) : py World pyobj :=
  remove_files rm_files mounted_path dry_run ;;;
  overwrite_files overwrite_list mounted_path dry_run ;;;
  remove_line_in_files remove_line_files mounted_path dry_run ;;;
  replace_line_in_files replace_line_files mounted_path dry_run ;;;
  remove_multiline_in_files multiline_delete_files mounted_path dry_run ;;;
  ret PyNone.

(** ["Expected a mounted path at %s" % mounted_path] *)
Definition expected_mounted (mounted_path : string) : exn :=
  Exception ("Expected a mounted path at " +:+ mounted_path).

(** The tables are locals named like the primitives, as in the source; the
    primitives themselves are reached only through [_perform_cleaning]. *)
Definition remove_user_data (mounted_path : string) (dry_run : bool) : py World pyobj :=
  mounted <- gets (check_mounted mounted_path) ;;
  if negb mounted then raise (expected_mounted mounted_path)
  else
    let remove_files := ["home/*"] in
    let overwrite_files := [""] in
    let remove_line_files := [] in
    let replace_line_files :=
      [ ("users:x:100:.*", "users:x:100:", "etc/group");
        ("AllowGroups users root.*", "", "etc/ssh/sshd_config") ] in
    let multiline_delete_files := [] in
    _perform_cleaning mounted_path remove_files remove_line_files overwrite_files
                      replace_line_files multiline_delete_files dry_run ;;;
    ret PyNone.

(** In the last table the third and fourth tuples are written with no comma
    between them, so the third is called with the fourth's items as
    arguments; the table is built before [_perform_cleaning] is reached. *)
Definition remove_atmo_data (mounted_path : string) (dry_run : bool) : py World pyobj :=
  mounted <- gets (check_mounted mounted_path) ;;
  if negb mounted then raise (expected_mounted mounted_path)
  else
    let remove_files :=
      [ "etc/rc.local.atmo";
        "usr/sbin/atmo_boot.py";
        "var/log/atmo/atmo_boot.log";
        "var/log/atmo/atmo_init.log";
        "var/log/atmo/atmo_init_full.log";
        "var/log/atmo/shellinaboxd.log";
        "var/log/atmo/deploy.log";
        "var/lib/puppet/run/*.pid";
        "etc/puppet/ssl";
        "var/log/puppet" ] in
    let overwrite_files := [] in
    let remove_line_files := [] in
    let replace_line_files :=
      [ (".*vncserver$", "", "etc/rc.local");
        (".*shellinbaox.*", "", "etc/rc.local") ] in
    third <- call_tuple
               ("## Atmosphere System", "## End Atmosphere System", "etc/ssh/sshd_config")
               ("## Atmosphere System", "## End Atmosphere System", "etc/skel/.bashrc") ;;
    let multiline_delete_files :=
      [ ("## Atmosphere System", "# End Nagios", "etc/sudoers");
        ("## Atmosphere System", "# End Atmosphere System", "etc/sudoers");
        third ] in
    _perform_cleaning mounted_path remove_files remove_line_files overwrite_files
                      replace_line_files multiline_delete_files dry_run ;;;
    ret PyNone.

Definition remove_vm_specific_data (mounted_path : string) (dry_run : bool)
    : py World pyobj :=
  mounted <- gets (check_mounted mounted_path) ;;
  if negb mounted then raise (expected_mounted mounted_path)
  else
    let remove_files := ["mnt/*"; "tmp/*"; "root/*"; "dev/*"; "proc/*"] in
    let remove_line_files := [] in
    let overwrite_files :=
      [ "root/.bash_history"; "var/log/auth.log";
        "var/log/boot.log"; "var/log/daemon.log";
        "var/log/denyhosts.log"; "var/log/dmesg";
        "var/log/secure"; "var/log/messages";
        "var/log/lastlog"; "var/log/cups/access_log";
        "var/log/cups/error_log"; "var/log/syslog";
        "var/log/user.log"; "var/log/wtmp";
        "var/log/apache2/access.log";
        "var/log/apache2/error.log";
        "var/log/yum.log" ] in
    let replace_line_files := [] in
    let multiline_delete_files := [] in
    _perform_cleaning mounted_path remove_files remove_line_files overwrite_files
                      replace_line_files multiline_delete_files dry_run ;;;
    ret PyNone.

End Clean.

(** The three public entry points. *)
Inductive profile : Type :=
| UserData
| AtmoData
| VmSpecificData.

Definition run `{Matchers} (p : profile) : string -> bool -> py World pyobj :=
  match p with
  | UserData => remove_user_data
  | AtmoData => remove_atmo_data
  | VmSpecificData => remove_vm_specific_data
  end.

End Clean.

(* ===================================================================== *)
(** ** core/models/instance.py: update_instance_metadata *)
(* ===================================================================== *)

Module Instance.

(** A call that reached the driver connection. *)
Inductive driver_call : Type :=
| call_ex_set_server_name (esh_instance : string) (name : pyobj)
| call_ex_set_metadata (esh_instance : string) (data : list (string * pyobj))
    (replace_metadata : bool).

Section Driver.
(** The provider's side: whatever state the cloud keeps. *)
Context {Cloud : Type}.

(** [esh_driver._connection]: a driver class may or may not define each of
    the two methods. *)
Record Connection : Type := {
  class_name : string;
  ex_set_metadata : option (string -> list (string * pyobj) -> bool -> py Cloud pyobj);
  ex_set_server_name : option (string -> pyobj -> py Cloud pyobj)
}.

Record Host : Type := {
  cloud : Cloud;
  info_log : list string;
  driver_calls : list driver_call
}.

Definition logger_info (line : string) : py Host pyobj :=
  fun h => (Returned PyNone,
            {| cloud := cloud h; info_log := info_log h ++ [line];
               driver_calls := driver_calls h |}).

(** A driver method runs on the cloud; the call is recorded. *)
Definition invoke (c : driver_call) (method : py Cloud pyobj) : py Host pyobj :=
  fun h =>
    let '(r, cl) := method (cloud h) in
    (r, {| cloud := cl; info_log := info_log h;
           driver_calls := driver_calls h ++ [c] |}).

Definition no_attribute (conn : Connection) (attr : string) : exn :=
  AttributeError ("'" +:+ class_name conn +:+ "' object has no attribute '" +:+ attr +:+ "'").

(** [hasattr(esh_driver._connection, 'ex_set_metadata')] *)
Definition hasattr_ex_set_metadata (conn : Connection) : bool :=
  match ex_set_metadata conn with Some _ => true | None => false end.

(** [esh_driver._connection.ex_set_server_name(esh_instance, name)] *)
Definition conn_ex_set_server_name (conn : Connection) (esh_instance : string)
    (name : pyobj) : py Host pyobj :=
  match ex_set_server_name conn with
  | Some method => invoke (call_ex_set_server_name esh_instance name)
                          (method esh_instance name)
  | None => raise (no_attribute conn "ex_set_server_name")
  end.

(** [esh_driver._connection.ex_set_metadata(esh_instance, data,
    replace_metadata=replace)] *)
Definition conn_ex_set_metadata (conn : Connection) (esh_instance : string)
    (data : list (string * pyobj)) (replace : bool) : py Host pyobj :=
  match ex_set_metadata conn with
  | Some method => invoke (call_ex_set_metadata esh_instance data replace)
                          (method esh_instance data replace)
  | None => raise (no_attribute conn "ex_set_metadata")
  end.

Definition ignorable : string := "incapable of performing the request".

(** The statement [if data.get('name'): ...ex_set_server_name(esh_instance,
    data['name'])]. [data['name']] is read only where [data.get('name')] was
    truthy, so the key is there and both give the same object. *)
Definition set_name_if_given (conn : Connection) (esh_instance : string)
    (data : list (string * pyobj)) : py Host pyobj :=
  if truthy (dict_get data "name")
  then conn_ex_set_server_name conn esh_instance (dict_get data "name")
  else ret PyNone.

Definition update_instance_metadata (conn : Connection) (esh_instance : string)
    (data : list (string * pyobj)) (replace : bool) : py Host pyobj :=
  if negb (hasattr_ex_set_metadata conn) then
    logger_info ("EshDriver " +:+ class_name conn
                 +:+ " does not have function 'ex_set_metadata'") ;;;
    ret (PyDict [])
  else
    set_name_if_given conn esh_instance data ;;;
    try_except (conn_ex_set_metadata conn esh_instance data replace)
      (fun e => if contains ignorable (message e) then ret (PyDict []) else raise e).

End Driver.

Arguments Connection : clear implicits.
Arguments Host : clear implicits.

End Instance.

(* ===================================================================== *)
(** ** A small matcher pair and sample worlds, for running the model *)
(* ===================================================================== *)

Module Samples.

(** Whole-line regular expressions with literal characters, [.], [c*] and a
    final [$]. *)
Fixpoint regex (re : string) : string -> bool :=
  match re with
  | EmptyString => fun s => match s with EmptyString => true | _ => false end
  | String c re1 =>
      match re1 with
      | String "*" re2 =>
          fix star (s : string) : bool :=
            regex re2 s ||
            match s with
            | EmptyString => false
            | String a s' => (Ascii.eqb c "." || Ascii.eqb c a) && star s'
            end
      | EmptyString =>
          fun s =>
            match s with
            | EmptyString => Ascii.eqb c "$"
            | String a s' =>
                negb (Ascii.eqb c "$") && (Ascii.eqb c "." || Ascii.eqb c a) &&
                match s' with EmptyString => true | _ => false end
            end
      | _ =>
          fun s =>
            match s with
            | EmptyString => false
            | String a s' => (Ascii.eqb c "." || Ascii.eqb c a) && regex re1 s'
            end
      end
  end.

(** Globs where [*] stands for any run of characters other than [/]. *)
Fixpoint glob (g : string) : string -> bool :=
  match g with
  | EmptyString => fun s => match s with EmptyString => true | _ => false end
  | String "*" g' =>
      fix star (s : string) : bool :=
        glob g' s ||
        match s with
        | EmptyString => false
        | String a s' => negb (Ascii.eqb a "/") && star s'
        end
  | String c g' =>
      fun s =>
        match s with
        | EmptyString => false
        | String a s' => Ascii.eqb c a && glob g' s'
        end
  end.

Definition matchers : Matchers := {| re_match := regex; glob_match := glob |}.

(** An image mounted at [/mnt]. *)
Definition image : gmap string node :=
  list_to_map
    [ ("/mnt", Dir);
      ("/mnt/home", Dir);
      ("/mnt/home/alice", Dir);
      ("/mnt/home/alice/notes.txt", File true ["secret"]);
      ("/mnt/etc", Dir);
      ("/mnt/etc/group", File true ["root:x:0:"; "users:x:100:alice,bob"]);
      ("/mnt/etc/sudoers",
        File true ["## Atmosphere System"; "foo"; "bar"; "# End Nagios"; "keep"]);
      ("/mnt/etc/rc.local",
        File true ["/usr/bin/vncserver"; "/usr/bin/shellinaboxd -b"; "exit 0"]);
      ("/mnt/etc/ssh/sshd_config", File true ["Port 22"; "AllowGroups users root staff"]);
      ("/mnt/var/log/syslog", File true ["boot"; "login alice"]) ].

Definition mounted_world : World :=
  {| mount_table := ["/mnt"]; fs := image; log := []; calls := [] |}.

Definition unmounted_world : World :=
  {| mount_table := []; fs := image; log := []; calls := [] |}.


(** A cloud with one server: its name and its metadata. *)
Record cloud_state : Type := {
  server_name : string;
  metadata : list (string * pyobj)
}.

Definition rename_server (esh_instance : string) (name : pyobj) : py cloud_state pyobj :=
  fun c =>
    match name with
    | PyStr n => (Returned PyNone, {| server_name := n; metadata := metadata c |})
    | _ => (Raised (TypeError "server name must be a string"), c)
    end.

(** A backend that cannot store metadata, and says so in two ways. *)
Definition incapable_set_metadata (esh_instance : string) (data : list (string * pyobj))
    (replace : bool) : py cloud_state pyobj :=
  raise (DriverError "MalformedResponseError"
           "The server is incapable of performing the request").

Definition failing_set_metadata (esh_instance : string) (data : list (string * pyobj))
    (replace : bool) : py cloud_state pyobj :=
  raise (DriverError "InvalidCredsError" "401 Unauthorized").

Definition incapable_conn : Instance.Connection cloud_state :=
  {| Instance.class_name := "OpenStack_Esh_NodeDriver";
     Instance.ex_set_metadata := Some incapable_set_metadata;
     Instance.ex_set_server_name := Some rename_server |}.

Definition failing_conn : Instance.Connection cloud_state :=
  {| Instance.class_name := "OpenStack_Esh_NodeDriver";
     Instance.ex_set_metadata := Some failing_set_metadata;
     Instance.ex_set_server_name := Some rename_server |}.

Definition fresh_host : Instance.Host cloud_state :=
  {| Instance.cloud := {| server_name := "old-name"; metadata := [] |};
     Instance.info_log := [];
     Instance.driver_calls := [] |}.

End Samples.

(* ===================================================================== *)
(** ** core/models/instance.py: the model and its utility functions *)
(* ===================================================================== *)

(** What the driver library hands over, by the attributes the module reads. *)
Module Esh.

Record Node : Type := {
  public_ips : list string;
  private_ips : list string;
  node_extra : list (string * pyobj)
}.

Record Machine : Type := { machine_name : string }.

Record Instance : Type := {
  alias : string;
  name : string;
  _node : Node;
  extra : list (string * pyobj);
  machine : Machine;
  status : string
}.

End Esh.

Module CoreInstance.

(** [django.contrib.auth.models.User], by the one attribute read here. *)
Record User : Type := { username : string }.

Section Rows.
Context {Machine Time : Type}.

(** An [Instance] object: the primary key, the attribute [esh] (a class
    attribute, [None] until an esh instance is attached; not a column) and
    the columns. *)
Record Instance : Type := {
  pk : nat;
  esh : option Esh.Instance;
  name : string;
  token : option string;
  provider_machine : Machine;
  provider_alias : string;
  ip_address : option string;
  created_by : User;
  start_date : Time;
  end_date : option Time;
  shell : bool;
  vnc : bool
}.

Definition with_esh (i : Instance) (e : option Esh.Instance) : Instance :=
  {| pk := pk i; esh := e; name := name i; token := token i;
     provider_machine := provider_machine i; provider_alias := provider_alias i;
     ip_address := ip_address i; created_by := created_by i;
     start_date := start_date i; end_date := end_date i;
     shell := shell i; vnc := vnc i |}.

Definition with_ip_address (i : Instance) (ip : option string) : Instance :=
  {| pk := pk i; esh := esh i; name := name i; token := token i;
     provider_machine := provider_machine i; provider_alias := provider_alias i;
     ip_address := ip; created_by := created_by i;
     start_date := start_date i; end_date := end_date i;
     shell := shell i; vnc := vnc i |}.

End Rows.

Arguments Instance : clear implicits.

Inductive level : Type := DEBUG | INFO | WARN.

Section Connections.
Context {Cloud : Type}.

(** [esh_driver._connection]: it may or may not define [ex_get_metadata]. *)
Record Connection : Type := {
  ex_get_metadata : option (option Esh.Instance -> py Cloud pyobj)
}.

End Connections.

Arguments Connection : clear implicits.

(** What lies outside the file: the types of the other models and of the
    driver's side, the library functions, and the two collaborators of the
    repository that are not under src/ ([convertEshMachine] of
    core/models/machine.py, which works on the machine tables, and
    [InstanceSerializer] of api/serializers.py: the errors of an invalid
    serializer or the object of a valid one, and what its [save] does). *)
Class Externals : Type := {
  Machine : Type;
  Time : Type;
  Errors : Type;
  MachineTables : Type;
  Cloud : Type;
  md5_hexdigest : pyobj -> string;
  strptime : string -> string -> option Time;
  replace_tzinfo_utc : Time -> Time;
  convertEshMachine : Connection Cloud -> Esh.Machine -> string -> py MachineTables Machine;
  InstanceSerializer : Instance Machine Time -> pyobj -> Errors + Instance Machine Time;
  serializer_save : Instance Machine Time -> list (Instance Machine Time) ->
                    outcome pyobj * list (Instance Machine Time)
}.

Section Model.
Context `{Externals}.

Local Abbreviation Inst := (Instance Machine Time).

(** An argument of a log call, kept as the object it is. *)
Inductive logged : Type :=
| LStr (s : string)
| LObj (o : pyobj)
| LEsh (e : Esh.Instance)
| LTime (t : Time)
| LToken (t : option string)
| LErrors (e : Errors).

(** [logger.<level>(fmt % args)] *)
Inductive log_entry : Type :=
| Log (lv : level) (fmt : string) (args : list logged).

(** The database table [instance] in row order, the next primary key, the
    machine tables, the provider's side, and the log. *)
Record Site : Type := {
  instances : list Inst;
  next_pk : nat;
  machine_tables : MachineTables;
  cloud : Cloud;
  logs : list log_entry
}.

Definition with_instances (rows : list Inst) (next : nat) (s : Site) : Site :=
  {| instances := rows; next_pk := next; machine_tables := machine_tables s;
     cloud := cloud s; logs := logs s |}.

Definition logger (lv : level) (fmt : string) (args : list logged) : py Site pyobj :=
  fun s => (Returned PyNone,
            {| instances := instances s; next_pk := next_pk s;
               machine_tables := machine_tables s; cloud := cloud s;
               logs := (logs s ++ [Log lv fmt args])%list |}).

(** An exception of a class the fragment has no constructor for, by its
    class name. *)
Definition IntegrityError (msg : string) : exn := DriverError "IntegrityError" msg.
Definition ValueError (msg : string) : exn := DriverError "ValueError" msg.
Definition KeyError (key : string) : exn := DriverError "KeyError" key.

(** *** The object-relational mapper, as far as the file uses it *)

Definition has_alias (a : string) (i : Inst) : bool := String.eqb (provider_alias i) a.

(** [Instance.objects.filter(provider_alias=alias)], evaluated: rows come
    back without an [esh]. *)
Definition objects_filter (a : string) (s : Site) : list Inst :=
  List.filter (has_alias a) (instances s).

(** [provider_alias] is declared [unique=True]: a row may not take the alias
    of another row. *)
Definition alias_taken (i : Inst) (rows : list Inst) : bool :=
  existsb (fun r => has_alias (provider_alias i) r && negb (Nat.eqb (pk r) (pk i))) rows.

(** [obj.save()]: the row with the object's primary key is rewritten, or the
    object is inserted when there is none. The attribute [esh] is not stored. *)
Definition save (i : Inst) : py Site pyobj :=
  fun s =>
    if alias_taken i (instances s)
    then (Raised (IntegrityError "column provider_alias is not unique"), s)
    else
      let row := with_esh i None in
      let rows :=
        if existsb (fun r => Nat.eqb (pk r) (pk i)) (instances s)
        then map (fun r => if Nat.eqb (pk r) (pk i) then row else r) (instances s)
        else (instances s ++ [row])%list in
      (Returned PyNone, with_instances rows (Nat.max (next_pk s) (S (pk i))) s).

(** [Instance.objects.create(...)] with the columns the file passes; the
    others take their defaults. *)
Definition objects_create (name_ : string) (provider_alias_ : string)
    (provider_machine_ : Machine) (ip_address_ : option string) (created_by_ : User)
    (token_ : option string) (start_date_ : Time) : py Site Inst :=
  fun s =>
    let i := {| pk := next_pk s; esh := None; name := name_; token := token_;
                provider_machine := provider_machine_;
                provider_alias := provider_alias_; ip_address := ip_address_;
                created_by := created_by_; start_date := start_date_;
                end_date := None; shell := false; vnc := false |} in
    if existsb (has_alias provider_alias_) (instances s)
    then (Raised (IntegrityError "column provider_alias is not unique"), s)
    else (Returned i, with_instances (instances s ++ [i])%list (S (next_pk s)) s).

(** *** Methods of [Instance] *)

(** [d[key]] *)
Definition dict_item (d : list (string * pyobj)) (key : string) : outcome pyobj :=
  if dict_has d key then Returned (dict_get d key) else Raised (KeyError key).

Definition on_none (attr : string) : exn :=
  AttributeError ("'NoneType' object has no attribute '" +:+ attr +:+ "'").

Definition creator_name (self : Inst) : string := username (created_by self).

Definition hash_alias (self : Inst) : string := md5_hexdigest (PyStr (provider_alias self)).

Definition hash_machine_alias (self : Inst) : outcome string :=
  match esh self with
  | None => Raised (on_none "_node")
  | Some e =>
      match dict_item (Esh.node_extra (Esh._node e)) "imageId" with
      | Returned image => Returned (md5_hexdigest image)
      | Raised err => Raised err
      end
  end.

Definition esh_status (self : Inst) : outcome pyobj :=
  match esh self with
  | None => Returned (PyStr "Unknown")
  | Some e => Returned (PyStr (Esh.status e))
  end.

Definition esh_size (self : Inst) : outcome pyobj :=
  match esh self with
  | None => Returned (PyStr "Unknown")
  | Some e => dict_item (Esh.node_extra (Esh._node e)) "instancetype"
  end.

Definition esh_machine_name (self : Inst) : outcome pyobj :=
  match esh self with
  | None => Returned (PyStr "Unknown")
  | Some e => Returned (PyStr (Esh.machine_name (Esh.machine e)))
  end.

Definition esh_machine (self : Inst) : outcome pyobj :=
  match esh self with
  | None => Returned (PyStr "Unknown")
  | Some e => dict_item (Esh.node_extra (Esh._node e)) "imageId"
  end.

(** *** Utility functions *)

Definition findInstance (alias : string) : py Site (option Inst) :=
  core_instance <- gets (objects_filter alias) ;;
  (if Nat.ltb 1 (length core_instance)
   then logger WARN "Multiple instances returned for alias - %s" [LStr alias]
   else ret PyNone) ;;;
  match core_instance with
  | first :: _ => ret (Some first)
  | [] => ret None
  end.

Definition createInstance (provider_id : string) (provider_alias : string)
    (provider_machine : Machine) (ip_address : string) (name : string)
    (creator : User) (create_stamp : Time) (token : option string) : py Site Inst :=
  new_inst <- objects_create name provider_alias provider_machine (Some ip_address)
                             creator token create_stamp ;;
  save new_inst ;;;
  logger DEBUG "New instance created - %s (Token = %s)" [LStr provider_alias; LToken token] ;;;
  ret new_inst.

(** The serializer's [save], on the table. *)
Definition run_serializer_save (obj : Inst) : py Site pyobj :=
  fun s =>
    let '(r, rows) := serializer_save obj (instances s) in
    (r, with_instances rows (next_pk s) s).

(** A call of the driver, on the provider's side. *)
Definition on_cloud {A} (c : py Cloud A) : py Site A :=
  fun s =>
    let '(r, cl) := c (cloud s) in
    (r, {| instances := instances s; next_pk := next_pk s;
           machine_tables := machine_tables s; cloud := cl; logs := logs s |}).

(** [convertEshMachine], on the machine tables. *)
Definition on_machine_tables {A} (c : py MachineTables A) : py Site A :=
  fun s =>
    let '(r, mt) := c (machine_tables s) in
    (r, {| instances := instances s; next_pk := next_pk s;
           machine_tables := mt; cloud := cloud s; logs := logs s |}).

Definition set_instance_from_metadata (esh_driver : Connection Cloud) (core_instance : Inst)
    : py Site Inst :=
  match ex_get_metadata esh_driver with
  | None => ret core_instance
  | Some get_metadata =>
      let esh_instance := esh core_instance in
      metadata <- on_cloud (get_metadata esh_instance) ;;
      match InstanceSerializer core_instance metadata with
      | inl errors =>
          logger WARN "Encountered errors serializing metadata:%s" [LErrors errors] ;;;
          ret core_instance
      | inr object =>
          run_serializer_save object ;;;
          ret (with_esh object esh_instance)
      end
  end.

(** [public_ips[0]], else [private_ips[0]], else the literal. *)
Definition first_ip (esh_instance : Esh.Instance) : string :=
  match Esh.public_ips (Esh._node esh_instance) with
  | ip :: _ => ip
  | [] =>
      match Esh.private_ips (Esh._node esh_instance) with
      | ip :: _ => ip
      | [] => "0.0.0.0"
      end
  end.

(** The three adjacent literals of the [raise], joined as written. *)
Definition no_timestamp : exn :=
  Exception ("Instance does not have a created timestamp.  This"
             +:+ "should never happen. Don't cheat and assume it was created just "
             +:+ "now. Get the real launch time, bra.").

(** The two [strptime] calls: the format with microseconds first, the one
    without on [ValueError]; a stamp that is not a string is a [TypeError],
    which the [except ValueError] lets through. *)
Definition parse_stamp (create_stamp : pyobj) : py Site Time :=
  match create_stamp with
  | PyStr stamp =>
      match strptime stamp "%Y-%m-%dT%H:%M:%S.%fZ" with
      | Some t => ret t
      | None =>
          match strptime stamp "%Y-%m-%dT%H:%M:%SZ" with
          | Some t => ret t
          | None => raise (ValueError "time data does not match format")
          end
      end
  | _ => raise (TypeError "strptime() argument 1 must be string")
  end.

Definition convertEshInstance (esh_driver : Connection Cloud) (esh_instance : Esh.Instance)
    (provider_id : string) (user : User) (token : option string) : py Site Inst :=
  logger DEBUG "%s" [LEsh esh_instance] ;;;
  logger DEBUG "%s" [LObj (PyDict (Esh.extra esh_instance))] ;;;
  let alias := Esh.alias esh_instance in
  let ip_address := first_ip esh_instance in
  let eshMachine := Esh.machine esh_instance in
  found <- findInstance alias ;;
  core_instance <-
    match found with
    | Some core_instance =>
        let core_instance := with_ip_address core_instance (Some ip_address) in
        save core_instance ;;;
        ret core_instance
    | None =>
        create_stamp <-
          (if dict_has (Esh.extra esh_instance) "launchdatetime"
           then ret (dict_get (Esh.extra esh_instance) "launchdatetime")
           else if dict_has (Esh.extra esh_instance) "created"
           then ret (dict_get (Esh.extra esh_instance) "created")
           else raise no_timestamp) ;;
        start_date <- parse_stamp create_stamp ;;
        let start_date := replace_tzinfo_utc start_date in
        logger DEBUG "CREATED: %s" [LObj create_stamp] ;;;
        logger DEBUG "START: %s" [LTime start_date] ;;;
        coreMachine <- on_machine_tables (convertEshMachine esh_driver eshMachine provider_id) ;;
        createInstance provider_id alias coreMachine ip_address
                       (Esh.name esh_instance) user start_date token
    end ;;
  let core_instance := with_esh core_instance (Some esh_instance) in
  set_instance_from_metadata esh_driver core_instance.

End Model.

End CoreInstance.

(** Sample collaborators and a sample site, for running the model. *)
Module CoreSamples.

Import CoreInstance.

(** Times are the stamp and whether a zone is attached; the format with
    [%f] accepts the stamps that hold a dot, the other one the rest. *)
Definition sample_strptime (stamp fmt : string) : option (string * bool) :=
  if Bool.eqb (contains ".%f" fmt) (contains "." stamp)
  then Some (stamp, false) else None.

Definition externals : Externals :=
  {| Machine := string;
     Time := string * bool;
     Errors := string;
     MachineTables := list string;
     Cloud := list string;
     md5_hexdigest := fun _ => "d41d8cd98f00b204e9800998ecf8427e";
     strptime := sample_strptime;
     replace_tzinfo_utc := fun t => (t.1, true);
     convertEshMachine := fun _ m _ => fun mt =>
       (Returned (Esh.machine_name m), (mt ++ [Esh.machine_name m])%list);
     InstanceSerializer := fun i _ => inl "metadata is not a mapping";
     serializer_save := fun _ rows => (Returned PyNone, rows) |}.

Definition alice : User := {| username := "alice" |}.

Definition row1 : @Instance string (string * bool) :=
  {| pk := 1; esh := None; name := "web"; token := None;
     provider_machine := "emi-1"; provider_alias := "i-1";
     ip_address := Some "10.0.0.1"; created_by := alice;
     start_date := ("2013-01-01T00:00:00Z", true); end_date := None;
     shell := false; vnc := false |}.

Definition row2 : @Instance string (string * bool) :=
  {| pk := 2; esh := None; name := "db"; token := Some "t-2";
     provider_machine := "emi-2"; provider_alias := "i-2";
     ip_address := None; created_by := alice;
     start_date := ("2013-02-01T00:00:00Z", true); end_date := None;
     shell := false; vnc := false |}.

Definition site : @Site externals :=
  @Build_Site externals [row1; row2] 3 [] [] [].

(** A table that breaks the uniqueness of aliases. *)
Definition row3 : @Instance string (string * bool) :=
  {| pk := 3; esh := None; name := "web-again"; token := None;
     provider_machine := "emi-1"; provider_alias := "i-1";
     ip_address := None; created_by := alice;
     start_date := ("2013-03-01T00:00:00Z", true); end_date := None;
     shell := false; vnc := false |}.

Definition duplicated_site : @Site externals :=
  @Build_Site externals [row1; row2; row3] 4 [] [] [].

(** A driver connection without [ex_get_metadata], and one with it. *)
Definition plain_driver : Connection (list string) := {| ex_get_metadata := None |}.

Definition metadata_driver : Connection (list string) :=
  {| ex_get_metadata :=
       Some (fun _ => fun c => (Returned (PyStr "not a dict"), (c ++ ["ex_get_metadata"])%list)) |}.

Definition esh_of (a : string) (pub priv : list string) (ex : list (string * pyobj))
    : Esh.Instance :=
  {| Esh.alias := a; Esh.name := "n-" +:+ a;
     Esh._node := {| Esh.public_ips := pub; Esh.private_ips := priv;
                     Esh.node_extra := [("imageId", PyStr "emi-9")] |};
     Esh.extra := ex;
     Esh.machine := {| Esh.machine_name := "emi-9" |};
     Esh.status := "active" |}.

End CoreSamples.

(** Notions the properties of the instance model are stated with. *)
Module CoreInstanceTerms.

Import CoreInstance.

(** The table as the model's declarations keep it: primary keys and aliases
    are unique, keys lie below the next key, and no stored row carries an
    [esh]. *)
Definition well_formed `{Externals} (s : Site) : Prop :=
  NoDup (map pk (instances s)) /\
  NoDup (map provider_alias (instances s)) /\
  Forall (fun r => (pk r < next_pk s)%nat) (instances s) /\
  Forall (fun r => esh r = None) (instances s).

(** The site with one more log entry. *)
Definition logged_site `{Externals} (lv : level) (fmt : string) (args : list logged)
    (s : Site) : Site :=
  {| instances := instances s; next_pk := next_pk s;
     machine_tables := machine_tables s; cloud := cloud s;
     logs := (logs s ++ [Log lv fmt args])%list |}.

(** The row [createInstance] makes. *)
Definition new_row `{Externals} (s : Site) (provider_alias_ : string)
    (provider_machine_ : Machine) (ip : string) (name_ : string) (creator : User)
    (stamp : Time) (token_ : option string) : Instance Machine Time :=
  {| pk := next_pk s; esh := None; name := name_; token := token_;
     provider_machine := provider_machine_; provider_alias := provider_alias_;
     ip_address := Some ip; created_by := creator; start_date := stamp;
     end_date := None; shell := false; vnc := false |}.

(** The site after the two debug lines that open [convertEshInstance]. *)
Definition observed `{Externals} (e : Esh.Instance) (s : Site) : Site :=
  logged_site DEBUG "%s" [LObj (PyDict (Esh.extra e))]
    (logged_site DEBUG "%s" [LEsh e] s).

(** The stamp the [if]/[elif] picks, if any. *)
Definition chosen_stamp (extra : list (string * pyobj)) : option pyobj :=
  if dict_has extra "launchdatetime" then Some (dict_get extra "launchdatetime")
  else if dict_has extra "created" then Some (dict_get extra "created")
  else None.

(** The time the two [strptime] calls give, if any. *)
Definition parsed `{Externals} (stamp : string) : option Time :=
  match strptime stamp "%Y-%m-%dT%H:%M:%S.%fZ" with
  | Some t => Some t
  | None => strptime stamp "%Y-%m-%dT%H:%M:%SZ"
  end.

(** The site after a new instance went through [convertEshInstance]. *)
Definition site_with_new `{Externals} (e : Esh.Instance) (stamp : pyobj) (t : Time)
    (mt : MachineTables) (tok : option string) (i : Instance Machine Time) (s : Site)
    : Site :=
  logged_site DEBUG "New instance created - %s (Token = %s)" [LStr (Esh.alias e); LToken tok]
    {| instances := (instances s ++ [i])%list; next_pk := S (next_pk s);
       machine_tables := mt; cloud := cloud s;
       logs := logs (logged_site DEBUG "START: %s" [LTime (replace_tzinfo_utc t)]
                      (logged_site DEBUG "CREATED: %s" [LObj stamp] (observed e s))) |}.

End CoreInstanceTerms.

(** The mount point and the dry-run flag a primitive was called with. *)
Module CleanTerms.

Definition call_target (c : call) : string * bool :=
  match c with
  | call_remove_files _ m d
  | call_overwrite_files _ m d
  | call_remove_line_in_files _ m d
  | call_replace_line_in_files _ m d
  | call_remove_multiline_in_files _ m d => (m, d)
  end.

End CleanTerms.

(* ===================================================================== *)
(** ** Properties of the cleaning module *)
(* ===================================================================== *)

Module CleanProofs.

Import Clean.

(** The world [_perform_cleaning] leaves: the five stages, one after the
    other. *)
Definition cleaned `{Matchers} (mounted_path : string) (rm_files : list string)
    (remove_line_files : list (string * string)) (overwrite_list : list string)
    (replace_line_files multiline_delete_files : list (string * string * string))
    (dry_run : bool) (w : World) : World :=
  snd (remove_multiline_in_files multiline_delete_files mounted_path dry_run
    (snd (replace_line_in_files replace_line_files mounted_path dry_run
      (snd (remove_line_in_files remove_line_files mounted_path dry_run
        (snd (overwrite_files overwrite_list mounted_path dry_run
          (snd (remove_files rm_files mounted_path dry_run w))))))))).

(** The calls of one run, in the order of the source. *)
Definition five_calls (mounted_path : string) (rm_files : list string)
    (remove_line_files : list (string * string)) (overwrite_list : list string)
    (replace_line_files multiline_delete_files : list (string * string * string))
    (dry_run : bool) : list call :=
  [ call_remove_files rm_files mounted_path dry_run;
    call_overwrite_files overwrite_list mounted_path dry_run;
    call_remove_line_in_files remove_line_files mounted_path dry_run;
    call_replace_line_in_files replace_line_files mounted_path dry_run;
    call_remove_multiline_in_files multiline_delete_files mounted_path dry_run ].

(** An edit of the tree: a target and what becomes of its lines. *)
Definition edit : Type := string * (list string -> list string).

Definition apply_edits (es : list edit) (m : gmap string node) : gmap string node :=
  fold_left (fun m e => alter (edit_node e.2) e.1 m) es m.

(** What a list of edits does to the lines of the file at [q]. *)
Definition lines_fn (es : list edit) (q : string) (ls : list string) : list string :=
  fold_left (fun ls e => if decide (e.1 = q) then e.2 ls else ls) es ls.

Definition rm_stage `{Matchers} (root : string) (globs : list string)
    (m : gmap string node) : gmap string node :=
  fold_left (fun m g => rm_glob (build_path root g) m) globs m.

(** The edits of the four line-level stages, in stage order. *)
Definition all_edits `{Matchers} (root : string)
    (remove_line_files : list (string * string)) (overwrite_list : list string)
    (replace_line_files multiline_delete_files : list (string * string * string))
    : list edit :=
  map (fun rel => (build_path root rel, fun _ : list string => [])) overwrite_list ++
  map (fun s : string * string => (build_path root s.2, drop_matching s.1))
      remove_line_files ++
  map (fun s : string * string * string =>
         (build_path root s.2, replace_matching s.1.1 s.1.2)) replace_line_files ++
  map (fun s : string * string * string =>
         (build_path root s.2, delete_ranges s.1.1 s.1.2 false)) multiline_delete_files.

(** No entry of the tree is an expansion of the glob. *)
Definition clean_of `{Matchers} (g : string) (m : gmap string node) : Prop :=
  forall d, matched g m d = false.

(** Every path of [m'] is a path of [m]. *)
Definition keys_sub (m' m : gmap string node) : Prop :=
  forall d, is_Some (m' !! d) -> is_Some (m !! d).

(** The log of [w'] is the log of [w] and what came after. *)
Definition log_extends (w w' : World) : Prop :=
  exists more, log w' = (log w ++ more)%list.








(** The exception of a call of a tuple, and the tables of the user and the
    instance-specific profiles. *)
Definition not_callable : exn := TypeError "'tuple' object is not callable".

Definition user_data_replace_table : list (string * string * string) :=
  [ ("users:x:100:.*", "users:x:100:", "etc/group");
    ("AllowGroups users root.*", "", "etc/ssh/sshd_config") ].

Definition vm_remove_table : list string :=
  ["mnt/*"; "tmp/*"; "root/*"; "dev/*"; "proc/*"].

Definition vm_overwrite_table : list string :=
  [ "root/.bash_history"; "var/log/auth.log"; "var/log/boot.log"; "var/log/daemon.log";
    "var/log/denyhosts.log"; "var/log/dmesg"; "var/log/secure"; "var/log/messages";
    "var/log/lastlog"; "var/log/cups/access_log"; "var/log/cups/error_log";
    "var/log/syslog"; "var/log/user.log"; "var/log/wtmp"; "var/log/apache2/access.log";
    "var/log/apache2/error.log"; "var/log/yum.log" ].

(** *** Folds and projections *)

Lemma fold_left_proj {A B C} (step : A -> B -> A) (g : C -> B -> C) (pr : A -> C) :
  (forall a b, pr (step a b) = g (pr a) b) ->
  forall l a, pr (fold_left step l a) = fold_left g l (pr a).
Proof.
  intros Hstep l. induction l as [|b l IH]; intros a; simpl; [reflexivity|].
  rewrite IH, Hstep. reflexivity.
Qed.

Lemma fold_left_const {B C} (l : list B) (c : C) :
  fold_left (fun c _ => c) l c = c.
Proof. induction l; simpl; auto. Qed.

Lemma fold_left_frame {A B C} (step : A -> B -> A) (pr : A -> C) :
  (forall a b, pr (step a b) = pr a) ->
  forall l a, pr (fold_left step l a) = pr a.
Proof.
  intros Hstep l a.
  rewrite (fold_left_proj step (fun c _ => c) pr Hstep). apply fold_left_const.
Qed.

Section Frames.
Context `{Matchers}.

Lemma alter_absent (f : node -> node) (p : string) (m : gmap string node) :
  m !! p = None -> alter f p m = m.
Proof.
  intros Hp. apply map_eq. intros q. rewrite lookup_alter.
  case_decide; subst; rewrite ?Hp; reflexivity.
Qed.

Lemma edit_step_fs kind pattern f notes path dry_run w :
  fs (edit_step kind pattern f notes path dry_run w) =
  if dry_run then fs w else alter (edit_node f) path (fs w).
Proof.
  unfold edit_step. destruct (fs w !! path) as [n|] eqn:Hp.
  - destruct dry_run; reflexivity.
  - destruct dry_run; [reflexivity|]. symmetry. apply alter_absent, Hp.
Qed.

Lemma edit_step_mounts kind pattern f notes path dry_run w :
  mount_table (edit_step kind pattern f notes path dry_run w) = mount_table w.
Proof.
  unfold edit_step. destruct (fs w !! path); [destruct dry_run|]; reflexivity.
Qed.

Lemma edit_step_calls kind pattern f notes path dry_run w :
  calls (edit_step kind pattern f notes path dry_run w) = calls w.
Proof.
  unfold edit_step. destruct (fs w !! path); [destruct dry_run|]; reflexivity.
Qed.

Lemma remove_step_fs root dry_run w g :
  fs (remove_step root dry_run w g) =
  if dry_run then fs w else rm_glob (build_path root g) (fs w).
Proof. unfold remove_step. destruct dry_run; reflexivity. Qed.

Lemma remove_step_mounts root dry_run w g :
  mount_table (remove_step root dry_run w g) = mount_table w.
Proof. unfold remove_step. destruct dry_run; reflexivity. Qed.

Lemma remove_step_calls root dry_run w g :
  calls (remove_step root dry_run w g) = calls w.
Proof. unfold remove_step. destruct dry_run; reflexivity. Qed.

End Frames.

(** Unfolds one of the four line-level steps down to [edit_step]. *)
Ltac line_step :=
  unfold overwrite_step, remove_line_step, replace_line_step, remove_multiline_step;
  repeat match goal with
         | |- context [let '(_, _) := ?s in _] => destruct s
         end.

Section Stages.
Context `{Matchers}.

Lemma extends_refl w : log_extends w w.
Proof. exists []. rewrite app_nil_r. reflexivity. Qed.

Lemma extends_trans w1 w2 w3 :
  log_extends w1 w2 -> log_extends w2 w3 -> log_extends w1 w3.
Proof.
  intros [m1 E1] [m2 E2]. exists (m1 ++ m2)%list.
  rewrite E2, E1, app_assoc. reflexivity.
Qed.

Lemma fold_extends {B} (step : World -> B -> World) :
  (forall w b, log_extends w (step w b)) ->
  forall l w, log_extends w (fold_left step l w).
Proof.
  intros Hstep l. induction l as [|b l IH]; intros w; simpl.
  - apply extends_refl.
  - eapply extends_trans; [apply Hstep | apply IH].
Qed.

Lemma edit_step_extends kind pattern f notes path dry_run w :
  log_extends w (edit_step kind pattern f notes path dry_run w).
Proof.
  unfold edit_step, log_extends. destruct (fs w !! path).
  - eexists. destruct dry_run; reflexivity.
  - exists []. rewrite app_nil_r. reflexivity.
Qed.

Lemma remove_step_extends root dry_run w g :
  log_extends w (remove_step root dry_run w g).
Proof. unfold remove_step. eexists. destruct dry_run; reflexivity. Qed.

Lemma stage_extends {B} (step : World -> B -> World) (c : call) l w :
  (forall w b, log_extends w (step w b)) ->
  log_extends w (fold_left step l (record_call c w)).
Proof.
  intros Hstep. apply (extends_trans w (record_call c w)).
  - exists []. simpl. rewrite app_nil_r. reflexivity.
  - apply fold_extends, Hstep.
Qed.

Lemma perform_cleaning_eq root rm rl ow rp ml dry_run w :
  _perform_cleaning root rm rl ow rp ml dry_run w =
  (Returned PyNone, cleaned root rm rl ow rp ml dry_run w).
Proof. reflexivity. Qed.

Lemma cleaned_mounts root rm rl ow rp ml dry_run w :
  mount_table (cleaned root rm rl ow rp ml dry_run w) = mount_table w.
Proof.
  unfold cleaned, remove_multiline_in_files, replace_line_in_files,
    remove_line_in_files, overwrite_files, remove_files; simpl.
  repeat (rewrite fold_left_frame;
          [simpl | intros; line_step;
                   first [apply edit_step_mounts | apply remove_step_mounts]]).
  reflexivity.
Qed.

Lemma cleaned_calls root rm rl ow rp ml dry_run w :
  calls (cleaned root rm rl ow rp ml dry_run w) =
  (calls w ++ five_calls root rm rl ow rp ml dry_run)%list.
Proof.
  unfold cleaned, remove_multiline_in_files, replace_line_in_files,
    remove_line_in_files, overwrite_files, remove_files; simpl.
  repeat (rewrite fold_left_frame;
          [simpl | intros; line_step;
                   first [apply edit_step_calls | apply remove_step_calls]]).
  unfold five_calls. rewrite <- !app_assoc. reflexivity.
Qed.

Lemma cleaned_extends root rm rl ow rp ml dry_run w :
  log_extends w (cleaned root rm rl ow rp ml dry_run w).
Proof.
  unfold cleaned, remove_multiline_in_files, replace_line_in_files,
    remove_line_in_files, overwrite_files, remove_files; simpl.
  repeat (eapply extends_trans;
          [|apply stage_extends; intros; line_step;
            first [apply edit_step_extends | apply remove_step_extends]]).
  apply extends_refl.
Qed.

Lemma cleaned_dry_fs root rm rl ow rp ml w :
  fs (cleaned root rm rl ow rp ml true w) = fs w.
Proof.
  unfold cleaned, remove_multiline_in_files, replace_line_in_files,
    remove_line_in_files, overwrite_files, remove_files; simpl.
  repeat (rewrite fold_left_frame;
          [simpl | intros; line_step;
                   first [apply edit_step_fs | apply remove_step_fs]]).
  reflexivity.
Qed.

(** *** The tree after a run *)

Lemma fold_left_map {A B C} (f : A -> B -> A) (h : C -> B) (l : list C) (a : A) :
  fold_left f (map h l) a = fold_left (fun a x => f a (h x)) l a.
Proof. revert a. induction l as [|x l IH]; intros a; simpl; auto. Qed.

Lemma apply_edits_app es1 es2 m :
  apply_edits (es1 ++ es2) m = apply_edits es2 (apply_edits es1 m).
Proof. apply fold_left_app. Qed.

Lemma remove_stage_fs root l w :
  fs (fold_left (remove_step root false) l w) = rm_stage root l (fs w).
Proof.
  unfold rm_stage. apply fold_left_proj. intros a g. rewrite remove_step_fs. reflexivity.
Qed.

Lemma overwrite_stage_fs root l w :
  fs (fold_left (overwrite_step root false) l w) =
  apply_edits (map (fun rel => (build_path root rel, fun _ : list string => [])) l) (fs w).
Proof.
  unfold apply_edits. rewrite fold_left_map. apply fold_left_proj.
  intros a rel. line_step; cbv beta iota. rewrite edit_step_fs. reflexivity.
Qed.

Lemma remove_line_stage_fs root l w :
  fs (fold_left (remove_line_step root false) l w) =
  apply_edits (map (fun s : string * string => (build_path root s.2, drop_matching s.1)) l)
              (fs w).
Proof.
  unfold apply_edits. rewrite fold_left_map. apply fold_left_proj.
  intros a [pat rel]. line_step; cbv beta iota. rewrite edit_step_fs. reflexivity.
Qed.

Lemma replace_line_stage_fs root l w :
  fs (fold_left (replace_line_step root false) l w) =
  apply_edits (map (fun s : string * string * string =>
                      (build_path root s.2, replace_matching s.1.1 s.1.2)) l) (fs w).
Proof.
  unfold apply_edits. rewrite fold_left_map. apply fold_left_proj.
  intros a [[pat rep] rel]. line_step; cbv beta iota. rewrite edit_step_fs. reflexivity.
Qed.

Lemma remove_multiline_stage_fs root l w :
  fs (fold_left (remove_multiline_step root false) l w) =
  apply_edits (map (fun s : string * string * string =>
                      (build_path root s.2, delete_ranges s.1.1 s.1.2 false)) l) (fs w).
Proof.
  unfold apply_edits. rewrite fold_left_map. apply fold_left_proj.
  intros a [[st en] rel]. line_step; cbv beta iota. rewrite edit_step_fs. reflexivity.
Qed.

(** A run that is not dry removes the expansions of the globs, then applies
    every edit; an edit whose target cannot be written changes nothing and
    the others still apply. *)
Lemma cleaned_fs root rm rl ow rp ml w :
  fs (cleaned root rm rl ow rp ml false w) =
  apply_edits (all_edits root rl ow rp ml) (rm_stage root rm (fs w)).
Proof.
  unfold cleaned, remove_multiline_in_files, replace_line_in_files,
    remove_line_in_files, overwrite_files, remove_files, all_edits; simpl.
  rewrite remove_multiline_stage_fs; simpl.
  rewrite replace_line_stage_fs; simpl.
  rewrite remove_line_stage_fs; simpl.
  rewrite overwrite_stage_fs; simpl.
  rewrite remove_stage_fs; simpl.
  rewrite !apply_edits_app. reflexivity.
Qed.

(** *** Edits, pointwise *)

Lemma edit_node_compose f g n : edit_node f (edit_node g n) = edit_node (fun ls => f (g ls)) n.
Proof. destruct n as [| |[] ls]; reflexivity. Qed.

Lemma edit_node_ext f g n : (forall ls, f ls = g ls) -> edit_node f n = edit_node g n.
Proof. intros E. destruct n as [| |[] ls]; simpl; rewrite ?E; reflexivity. Qed.

Lemma edit_node_id n : edit_node (fun ls => ls) n = n.
Proof. destruct n as [| |[] ls]; reflexivity. Qed.

Lemma apply_edits_lookup es m q :
  apply_edits es m !! q = edit_node (lines_fn es q) <$> m !! q.
Proof.
  revert m. induction es as [|e es IH]; intros m.
  - simpl. destruct (m !! q) as [n|]; simpl; [|reflexivity].
    unfold lines_fn; simpl. rewrite edit_node_id. reflexivity.
  - change (apply_edits (e :: es) m) with (apply_edits es (alter (edit_node e.2) e.1 m)).
    rewrite IH, lookup_alter. unfold lines_fn; simpl.
    destruct (decide (e.1 = q)) as [->|Hne]; [|reflexivity].
    destruct (m !! q) as [n|]; simpl; [|reflexivity].
    rewrite edit_node_compose. reflexivity.
Qed.

Lemma apply_edits_keys es m d : is_Some (apply_edits es m !! d) <-> is_Some (m !! d).
Proof. rewrite apply_edits_lookup. apply fmap_is_Some. Qed.

Lemma apply_edits_idem es :
  (forall q ls, lines_fn es q (lines_fn es q ls) = lines_fn es q ls) ->
  forall m, apply_edits es (apply_edits es m) = apply_edits es m.
Proof.
  intros Hidem m. apply map_eq. intros q. rewrite !apply_edits_lookup.
  destruct (m !! q) as [n|]; simpl; [|reflexivity].
  rewrite edit_node_compose. f_equal. apply edit_node_ext, Hidem.
Qed.

(** *** Globs, once removed, stay removed *)

Lemma existsb_all_false {A} (f : A -> bool) (l : list A) :
  (forall x, f x = false) -> existsb f l = false.
Proof. intros Hf. induction l; simpl; rewrite ?Hf; auto. Qed.

Lemma rm_glob_sub g m : keys_sub (rm_glob g m) m.
Proof.
  intros d [n Hn]. unfold rm_glob in Hn.
  apply map_lookup_filter_Some in Hn as [Hn _]. eauto.
Qed.

Lemma rm_glob_clean g m : clean_of g (rm_glob g m).
Proof.
  intros d. unfold matched. destruct (glob_match g d) eqn:G; simpl; [|reflexivity].
  apply bool_decide_eq_false. intros [n Hn]. unfold rm_glob in Hn.
  apply map_lookup_filter_Some in Hn as [Hm Hv]. simpl in Hv.
  unfold victim in Hv. simpl in Hv. apply orb_false_iff in Hv as [Hv _].
  unfold matched in Hv. rewrite G in Hv. simpl in Hv.
  apply bool_decide_eq_false in Hv. apply Hv. eauto.
Qed.

Lemma clean_rm_id g m : clean_of g m -> rm_glob g m = m.
Proof.
  intros Hc. unfold rm_glob. apply map_filter_id. intros i x _. simpl.
  unfold victim. apply existsb_all_false, Hc.
Qed.

Lemma clean_sub g m m' : keys_sub m' m -> clean_of g m -> clean_of g m'.
Proof.
  intros Hsub Hc d. specialize (Hc d). unfold matched in *.
  destruct (glob_match g d); simpl in *; [|reflexivity].
  apply bool_decide_eq_false. apply bool_decide_eq_false in Hc.
  intros Hs. apply Hc, Hsub, Hs.
Qed.

Lemma rm_stage_sub root gs m : keys_sub (rm_stage root gs m) m.
Proof.
  revert m. induction gs as [|g gs IH]; intros m; simpl.
  - intros d Hd. exact Hd.
  - intros d Hd. apply (rm_glob_sub (build_path root g)). apply (IH _ d Hd).
Qed.

Lemma rm_stage_clean root gs m g :
  In g gs -> clean_of (build_path root g) (rm_stage root gs m).
Proof.
  revert m. induction gs as [|a gs IH]; intros m Hin; [destruct Hin|].
  destruct Hin as [->|Hin].
  - simpl. eapply clean_sub; [apply rm_stage_sub | apply rm_glob_clean].
  - apply (IH _ Hin).
Qed.

Lemma rm_stage_id root gs m :
  (forall g, In g gs -> clean_of (build_path root g) m) -> rm_stage root gs m = m.
Proof.
  induction gs as [|a gs IH]; intros Hc; simpl; [reflexivity|].
  rewrite clean_rm_id by (apply Hc; left; reflexivity).
  apply IH. intros g Hg. apply Hc. right. exact Hg.
Qed.

(** Removing then editing, twice, is removing then editing, once, whenever
    the edits are idempotent on every file. *)
Lemma remove_then_edit_idem root rm es m :
  (forall q ls, lines_fn es q (lines_fn es q ls) = lines_fn es q ls) ->
  apply_edits es (rm_stage root rm (apply_edits es (rm_stage root rm m))) =
  apply_edits es (rm_stage root rm m).
Proof.
  intros Hidem.
  rewrite (rm_stage_id root rm (apply_edits es (rm_stage root rm m))).
  - apply apply_edits_idem, Hidem.
  - intros g Hg. eapply clean_sub; [|apply rm_stage_clean, Hg].
    intros d Hd. apply apply_edits_keys in Hd. exact Hd.
Qed.

End Stages.

(** *** The entry points *)

Section EntryPoints.
Context `{Matchers}.

Lemma user_data_unmounted path dry_run w :
  check_mounted path w = false ->
  remove_user_data path dry_run w = (Raised (expected_mounted path), w).
Proof. intros Hm. unfold remove_user_data, bind, gets. rewrite Hm. reflexivity. Qed.

Lemma atmo_data_unmounted path dry_run w :
  check_mounted path w = false ->
  remove_atmo_data path dry_run w = (Raised (expected_mounted path), w).
Proof. intros Hm. unfold remove_atmo_data, bind, gets. rewrite Hm. reflexivity. Qed.

Lemma vm_specific_data_unmounted path dry_run w :
  check_mounted path w = false ->
  remove_vm_specific_data path dry_run w = (Raised (expected_mounted path), w).
Proof. intros Hm. unfold remove_vm_specific_data, bind, gets. rewrite Hm. reflexivity. Qed.

Lemma user_data_mounted path dry_run w :
  check_mounted path w = true ->
  remove_user_data path dry_run w =
  (Returned PyNone,
   cleaned path ["home/*"] [] [""] user_data_replace_table [] dry_run w).
Proof.
  intros Hm. unfold remove_user_data, bind at 1 2, gets. rewrite Hm.
  cbv beta iota zeta delta [negb]. rewrite perform_cleaning_eq. reflexivity.
Qed.

(** On a mounted path [remove_atmo_data] stops while it builds its last
    table: nothing is called and the world is as it was. *)
Lemma atmo_data_mounted path dry_run w :
  check_mounted path w = true ->
  remove_atmo_data path dry_run w = (Raised not_callable, w).
Proof. intros Hm. unfold remove_atmo_data, bind, gets. rewrite Hm. reflexivity. Qed.

Lemma vm_specific_data_mounted path dry_run w :
  check_mounted path w = true ->
  remove_vm_specific_data path dry_run w =
  (Returned PyNone,
   cleaned path vm_remove_table [] vm_overwrite_table [] [] dry_run w).
Proof.
  intros Hm. unfold remove_vm_specific_data, bind at 1 2, gets. rewrite Hm.
  cbv beta iota zeta delta [negb]. rewrite perform_cleaning_eq. reflexivity.
Qed.

(** Whatever the tables, [_perform_cleaning] calls the five primitives in
    the order of the source and returns [None]. *)
Lemma perform_cleaning_order root rm rl ow rp ml dry_run w :
  let r := _perform_cleaning root rm rl ow rp ml dry_run w in
  fst r = Returned PyNone /\
  calls (snd r) = (calls w ++ five_calls root rm rl ow rp ml dry_run)%list.
Proof. simpl. split; [reflexivity | apply cleaned_calls]. Qed.

Lemma user_data_order path dry_run w :
  check_mounted path w = true ->
  calls (snd (remove_user_data path dry_run w)) =
  (calls w ++ five_calls path ["home/*"] [] [""] user_data_replace_table [] dry_run)%list.
Proof. intros Hm. rewrite user_data_mounted by exact Hm. apply cleaned_calls. Qed.

Lemma vm_specific_data_order path dry_run w :
  check_mounted path w = true ->
  calls (snd (remove_vm_specific_data path dry_run w)) =
  (calls w ++ five_calls path vm_remove_table [] vm_overwrite_table [] [] dry_run)%list.
Proof. intros Hm. rewrite vm_specific_data_mounted by exact Hm. apply cleaned_calls. Qed.

(** A dry run of any entry point, on any path, leaves the tree as it was. *)
Lemma dry_run_keeps_the_tree (p : profile) path w :
  fs (snd (run p path true w)) = fs w.
Proof.
  destruct (check_mounted path w) eqn:Hm; destruct p; unfold run.
  - rewrite (user_data_mounted path true w Hm). apply cleaned_dry_fs.
  - rewrite (atmo_data_mounted path true w Hm). reflexivity.
  - rewrite (vm_specific_data_mounted path true w Hm). apply cleaned_dry_fs.
  - rewrite (user_data_unmounted path true w Hm). reflexivity.
  - rewrite (atmo_data_unmounted path true w Hm). reflexivity.
  - rewrite (vm_specific_data_unmounted path true w Hm). reflexivity.
Qed.

End EntryPoints.

(** *** Not mounted *)

(** C2. On a path for which the mount check is false, each of
    [remove_user_data], [remove_atmo_data] and [remove_vm_specific_data]
    raises the not-mounted exception, and the world it leaves is the world it
    was given: no file, no log line, no call of a primitive. *)
Theorem C2_unmounted_raises_and_mutates_nothing `{Matchers} (path : string)
    (dry_run : bool) (w : World) :
  check_mounted path w = false ->
  remove_user_data path dry_run w = (Raised (expected_mounted path), w) /\
  remove_atmo_data path dry_run w = (Raised (expected_mounted path), w) /\
  remove_vm_specific_data path dry_run w = (Raised (expected_mounted path), w).
Proof.
  intros Hm. split; [|split].
  - apply user_data_unmounted, Hm.
  - apply atmo_data_unmounted, Hm.
  - apply vm_specific_data_unmounted, Hm.
Qed.

Lemma C2_unmounted_witness :
  check_mounted "/mnt" Samples.unmounted_world = false /\
  @remove_user_data Samples.matchers "/mnt" false Samples.unmounted_world =
    (Raised (expected_mounted "/mnt"), Samples.unmounted_world) /\
  @remove_atmo_data Samples.matchers "/mnt" false Samples.unmounted_world =
    (Raised (expected_mounted "/mnt"), Samples.unmounted_world) /\
  @remove_vm_specific_data Samples.matchers "/mnt" false Samples.unmounted_world =
    (Raised (expected_mounted "/mnt"), Samples.unmounted_world).
Proof.
  split; [reflexivity|].
  apply (@C2_unmounted_raises_and_mutates_nothing Samples.matchers
           "/mnt" false Samples.unmounted_world).
  reflexivity.
Defined.

(** *** The platform profile on a mounted image *)

(** C1. On the sample image mounted at [/mnt], [remove_atmo_data] raises
    [TypeError] and [etc/sudoers] still holds its sentinel block, although
    the range deletion the table asks for would reduce these five lines to
    [keep]. *)
Theorem C1_atmo_data_leaves_sentinel_blocks :
  let r := @remove_atmo_data Samples.matchers "/mnt" false Samples.mounted_world in
  let block := ["## Atmosphere System"; "foo"; "bar"; "# End Nagios"; "keep"] in
  check_mounted "/mnt" Samples.mounted_world = true /\
  fst r = Raised not_callable /\
  fs (snd r) !! "/mnt/etc/sudoers" = Some (File true block) /\
  @delete_ranges Samples.matchers "## Atmosphere System" "# End Nagios" false block
    = ["keep"].
Proof.
  cbv zeta. rewrite (@atmo_data_mounted Samples.matchers) by reflexivity.
  repeat split; vm_compute; reflexivity.
Qed.

(** C3. On the sample image mounted at [/mnt], a dry run of
    [remove_atmo_data] raises [TypeError]; the tree is unchanged and the log
    is empty. *)
Theorem C3_atmo_data_dry_run_logs_nothing :
  let r := @remove_atmo_data Samples.matchers "/mnt" true Samples.mounted_world in
  check_mounted "/mnt" Samples.mounted_world = true /\
  fst r = Raised not_callable /\
  fs (snd r) = Samples.image /\
  log (snd r) = [].
Proof.
  cbv zeta. rewrite (@atmo_data_mounted Samples.matchers) by reflexivity.
  repeat split.
Qed.

(** C4. On the sample image mounted at [/mnt], [remove_atmo_data] passes the
    mount check and raises [TypeError] with no primitive called: none of the
    five stages runs. *)
Theorem C4_atmo_data_runs_no_stage :
  let r := @remove_atmo_data Samples.matchers "/mnt" false Samples.mounted_world in
  check_mounted "/mnt" Samples.mounted_world = true /\
  fst r = Raised not_callable /\
  calls (snd r) = [].
Proof.
  cbv zeta. rewrite (@atmo_data_mounted Samples.matchers) by reflexivity.
  repeat split.
Qed.

(** C5. On the sample image mounted at [/mnt], [remove_atmo_data] raises
    [TypeError] and [etc/rc.local] keeps its VNC and shellinabox lines;
    besides, the second pattern of the table is spelled [shellinbaox] and
    does not match a shellinabox line. *)
Theorem C5_atmo_data_leaves_rc_local :
  let r := @remove_atmo_data Samples.matchers "/mnt" false Samples.mounted_world in
  check_mounted "/mnt" Samples.mounted_world = true /\
  fst r = Raised not_callable /\
  fs (snd r) !! "/mnt/etc/rc.local" =
    Some (File true ["/usr/bin/vncserver"; "/usr/bin/shellinaboxd -b"; "exit 0"]) /\
  Samples.regex ".*vncserver$" "/usr/bin/vncserver" = true /\
  Samples.regex ".*shellinbaox.*" "/usr/bin/shellinaboxd -b" = false.
Proof.
  cbv zeta. rewrite (@atmo_data_mounted Samples.matchers) by reflexivity.
  repeat split; vm_compute; reflexivity.
Qed.

(** *** The user profile and the overwrite stage *)

(** C9. On a mounted path [remove_user_data] calls the five primitives with
    its tables; the overwrite stage receives the one-element list [['']],
    whose only target is the mount root itself, and so does one edit, at the
    root. *)
Theorem C9_user_data_overwrites_the_root `{Matchers} (path : string) (dry_run : bool)
    (w : World) :
  check_mounted path w = true ->
  calls (snd (remove_user_data path dry_run w)) =
    (calls w ++
     [ call_remove_files ["home/*"] path dry_run;
       call_overwrite_files [""] path dry_run;
       call_remove_line_in_files [] path dry_run;
       call_replace_line_in_files user_data_replace_table path dry_run;
       call_remove_multiline_in_files [] path dry_run ])%list /\
  map (build_path path) [""] = [path] /\
  forall w0,
    snd (overwrite_files [""] path dry_run w0) =
    edit_step OpOverwrite None (fun _ => []) no_notes path dry_run
              (record_call (call_overwrite_files [""] path dry_run) w0).
Proof.
  intros Hm. split; [|split].
  - apply user_data_order, Hm.
  - reflexivity.
  - intros w0. reflexivity.
Qed.

Lemma C9_user_data_witness :
  check_mounted "/mnt" Samples.mounted_world = true /\
  calls (snd (@remove_user_data Samples.matchers "/mnt" false Samples.mounted_world)) =
    [ call_remove_files ["home/*"] "/mnt" false;
      call_overwrite_files [""] "/mnt" false;
      call_remove_line_in_files [] "/mnt" false;
      call_replace_line_in_files user_data_replace_table "/mnt" false;
      call_remove_multiline_in_files [] "/mnt" false ].
Proof.
  split; [reflexivity|].
  apply (@C9_user_data_overwrites_the_root Samples.matchers
           "/mnt" false Samples.mounted_world).
  reflexivity.
Defined.

(** *** Running a profile twice *)

Lemma append_ne (s : string) (c : ascii) (t : string) : s +:+ String c t <> s.
Proof.
  induction s as [|a s IH]; simpl; intros E; [discriminate|].
  injection E as E. exact (IH E).
Qed.

Section Idempotence.
Context `{Matchers}.

Lemma replace_matching_idem pattern replacement ls :
  replace_matching pattern replacement (replace_matching pattern replacement ls) =
  replace_matching pattern replacement ls.
Proof.
  unfold replace_matching. rewrite map_map. apply map_ext. intros l.
  destruct (re_match pattern l) eqn:E.
  - destruct (re_match pattern replacement); reflexivity.
  - rewrite E. reflexivity.
Qed.

(** Edits that all truncate leave a file as it was or empty. *)
Lemma truncations_cases (es : list edit) q :
  (forall e, In e es -> forall ls, e.2 ls = []) ->
  forall ls, lines_fn es q ls = ls \/ lines_fn es q ls = [].
Proof.
  induction es as [|e es IH]; intros Ht ls; [left; reflexivity|].
  unfold lines_fn; simpl. fold (lines_fn es q).
  assert (Ht' : forall e', In e' es -> forall ls, e'.2 ls = [])
    by (intros e' He'; apply Ht; right; exact He').
  destruct (decide (e.1 = q)) as [_|_]; [|apply IH, Ht'].
  rewrite (Ht e (or_introl eq_refl) ls).
  right. destruct (IH Ht' []) as [E|E]; exact E.
Qed.

Lemma truncations_idem (es : list edit) :
  (forall e, In e es -> forall ls, e.2 ls = []) ->
  forall q ls, lines_fn es q (lines_fn es q ls) = lines_fn es q ls.
Proof.
  intros Ht q ls. destruct (truncations_cases es q Ht ls) as [E|E]; rewrite E.
  - exact E.
  - destruct (truncations_cases es q Ht []) as [E'|E']; exact E'.
Qed.

Lemma vm_edits_truncate root e :
  In e (all_edits root [] vm_overwrite_table [] []) -> forall ls, e.2 ls = [].
Proof.
  unfold all_edits. simpl map at 2 3 4. rewrite !app_nil_r.
  intros He ls. apply in_map_iff in He as [rel [<- _]]. reflexivity.
Qed.

Lemma three_edits_idem (p0 p1 p2 : string) (f0 f1 f2 : list string -> list string) :
  p0 <> p1 -> p0 <> p2 -> p1 <> p2 ->
  (forall ls, f0 (f0 ls) = f0 ls) ->
  (forall ls, f1 (f1 ls) = f1 ls) ->
  (forall ls, f2 (f2 ls) = f2 ls) ->
  forall q ls,
    lines_fn [(p0, f0); (p1, f1); (p2, f2)] q
      (lines_fn [(p0, f0); (p1, f1); (p2, f2)] q ls) =
    lines_fn [(p0, f0); (p1, f1); (p2, f2)] q ls.
Proof.
  intros N01 N02 N12 I0 I1 I2 q ls. unfold lines_fn; simpl.
  destruct (decide (p0 = q)) as [E0|N0];
  destruct (decide (p1 = q)) as [E1|N1];
  destruct (decide (p2 = q)) as [E2|N2];
  subst; try congruence; rewrite ?I0, ?I1, ?I2; reflexivity.
Qed.

(** The three targets of the user profile are three different paths, and
    each of its edits is idempotent. *)
Lemma user_edits_idem root q ls :
  let es := all_edits root [] [""] user_data_replace_table [] in
  lines_fn es q (lines_fn es q ls) = lines_fn es q ls.
Proof.
  cbv zeta.
  change (all_edits root [] [""] user_data_replace_table [])
    with [ (root, fun _ : list string => @nil string);
           (root +:+ "/etc/group", replace_matching "users:x:100:.*" "users:x:100:");
           (root +:+ "/etc/ssh/sshd_config",
            replace_matching "AllowGroups users root.*" "") ].
  apply three_edits_idem.
  - intros E. symmetry in E. exact (append_ne _ _ _ E).
  - intros E. symmetry in E. exact (append_ne _ _ _ E).
  - intros E. apply String.app_inj in E. discriminate E.
  - reflexivity.
  - apply replace_matching_idem.
  - apply replace_matching_idem.
Qed.

Lemma cleaned_check_mounted path root rm rl ow rp ml dry_run w :
  check_mounted path (cleaned root rm rl ow rp ml dry_run w) = check_mounted path w.
Proof. unfold check_mounted. rewrite cleaned_mounts. reflexivity. Qed.

Lemma cleaned_twice root rm rl ow rp ml dry_run w :
  (forall q ls, lines_fn (all_edits root rl ow rp ml) q
                  (lines_fn (all_edits root rl ow rp ml) q ls) =
                lines_fn (all_edits root rl ow rp ml) q ls) ->
  fs (cleaned root rm rl ow rp ml dry_run (cleaned root rm rl ow rp ml dry_run w)) =
  fs (cleaned root rm rl ow rp ml dry_run w).
Proof.
  intros Hidem. destruct dry_run.
  - rewrite !cleaned_dry_fs. reflexivity.
  - rewrite !cleaned_fs. apply remove_then_edit_idem, Hidem.
Qed.

(** A failing edit changes nothing but the log, where it leaves a failure
    line; the walk over the list goes on from the same tree. *)
Lemma edit_step_failure kind pattern f path w n :
  fs w !! path = Some n ->
  (forall ls, n <> File true ls) ->
  exists cause,
    edit_step kind pattern f no_notes path false w =
    add_log [LogFailure kind path cause] w.
Proof.
  intros Hn Hbad. unfold edit_step. rewrite Hn.
  assert (Hid : alter (edit_node f) path (fs w) = fs w).
  { apply alter_id. intros x Hx. rewrite Hn in Hx. injection Hx as <-.
    destruct n as [| |[] ls]; try reflexivity. destruct (Hbad ls eq_refl). }
  destruct n as [| |[] ls].
  - exists NotARegularFile. simpl. unfold with_fs. simpl. rewrite Hid. reflexivity.
  - exists NotARegularFile. simpl. unfold with_fs. simpl. rewrite Hid. reflexivity.
  - destruct (Hbad ls eq_refl).
  - exists PermissionDenied. simpl. unfold with_fs. simpl. rewrite Hid. reflexivity.
Qed.

End Idempotence.

(** C6. Whichever of the three entry points is run, on whatever path, a
    second run started from the world the first one left ends with the same
    tree and with the same outcome as the first: what the first run removed
    gives the second no reason to raise. *)
Theorem C6_profiles_idempotent `{Matchers} (p : profile) (path : string)
    (dry_run : bool) (w : World) :
  let first_run := run p path dry_run w in
  let second_run := run p path dry_run (snd first_run) in
  fs (snd second_run) = fs (snd first_run) /\ fst second_run = fst first_run.
Proof.
  cbv zeta. destruct (check_mounted path w) eqn:Hm; destruct p; unfold run.
  - rewrite (user_data_mounted path dry_run w Hm). cbn [fst snd].
    rewrite user_data_mounted by (rewrite cleaned_check_mounted; exact Hm).
    cbn [fst snd]. split; [|reflexivity].
    apply cleaned_twice. intros q ls. apply user_edits_idem.
  - rewrite (atmo_data_mounted path dry_run w Hm). cbn [fst snd].
    rewrite (atmo_data_mounted path dry_run w Hm). split; reflexivity.
  - rewrite (vm_specific_data_mounted path dry_run w Hm). cbn [fst snd].
    rewrite vm_specific_data_mounted by (rewrite cleaned_check_mounted; exact Hm).
    cbn [fst snd]. split; [|reflexivity].
    apply cleaned_twice. apply truncations_idem. intros e. apply vm_edits_truncate.
  - rewrite (user_data_unmounted path dry_run w Hm). cbn [fst snd].
    rewrite (user_data_unmounted path dry_run w Hm). split; reflexivity.
  - rewrite (atmo_data_unmounted path dry_run w Hm). cbn [fst snd].
    rewrite (atmo_data_unmounted path dry_run w Hm). split; reflexivity.
  - rewrite (vm_specific_data_unmounted path dry_run w Hm). cbn [fst snd].
    rewrite (vm_specific_data_unmounted path dry_run w Hm). split; reflexivity.
Qed.

(** On the sample image the first run of the user profile does remove the
    home directories, and the second run finds nothing more to do. *)
Example user_data_twice_on_sample :
  let first_run := @remove_user_data Samples.matchers "/mnt" false Samples.mounted_world in
  let second_run := @remove_user_data Samples.matchers "/mnt" false (snd first_run) in
  Samples.image !! "/mnt/home/alice" = Some Dir /\
  fs (snd first_run) !! "/mnt/home/alice" = None /\
  fs (snd first_run) !! "/mnt/etc/group" = Some (File true ["root:x:0:"; "users:x:100:"]) /\
  map_to_list (fs (snd second_run)) = map_to_list (fs (snd first_run)).
Proof. cbv zeta. repeat split; vm_compute; reflexivity. Qed.

(** *** Failures *)

Section Failures.
Context `{Matchers}.





End Failures.




End CleanProofs.

(* ===================================================================== *)
(** ** Properties of update_instance_metadata *)
(* ===================================================================== *)

Module InstanceProofs.

Import Instance.

Section Driver.
Context {Cloud : Type}.
Implicit Types (conn : Connection Cloud) (h : Host Cloud).

(** A connection without [ex_set_metadata]: one info line, [{}], no call. *)
Lemma no_set_metadata_returns_empty conn inst data replace h :
  ex_set_metadata conn = None ->
  let r := update_instance_metadata conn inst data replace h in
  fst r = Returned (PyDict []) /\
  cloud (snd r) = cloud h /\
  driver_calls (snd r) = driver_calls h.
Proof.
  intros Hno. unfold update_instance_metadata, hasattr_ex_set_metadata.
  rewrite Hno. repeat split.
Qed.

(** A falsy or absent name: no rename. *)
Lemma set_name_skipped conn inst data h :
  truthy (dict_get data "name") = false ->
  set_name_if_given conn inst data h = (Returned PyNone, h).
Proof. intros Hf. unfold set_name_if_given. rewrite Hf. reflexivity. Qed.

(** An exception of the rename is outside the [try]: it reaches the caller
    whatever its message says, and [ex_set_metadata] is not called. *)
Lemma rename_failure_propagates conn inst data replace h e h1 :
  hasattr_ex_set_metadata conn = true ->
  set_name_if_given conn inst data h = (Raised e, h1) ->
  update_instance_metadata conn inst data replace h = (Raised e, h1).
Proof.
  intros Hattr Hset. unfold update_instance_metadata. rewrite Hattr.
  unfold bind. cbn [negb]. rewrite Hset. reflexivity.
Qed.

End Driver.

(** C8. Once the statements before the [try] have returned, the outcome of
    [update_instance_metadata] is decided by the call of [ex_set_metadata]:
    its value if it returns; [{}] if it raises with a message that contains
    "incapable of performing the request"; the same exception, raised again,
    if the message does not contain it. *)
Theorem C8_only_incapable_is_swallowed {Cloud : Type} (conn : Connection Cloud)
    (esh_instance : string) (data : list (string * pyobj)) (replace : bool)
    (h h1 : Host Cloud) (x : pyobj) :
  hasattr_ex_set_metadata conn = true ->
  set_name_if_given conn esh_instance data h = (Returned x, h1) ->
  update_instance_metadata conn esh_instance data replace h =
  match conn_ex_set_metadata conn esh_instance data replace h1 with
  | (Returned v, h2) => (Returned v, h2)
  | (Raised e, h2) =>
      if contains ignorable (message e)
      then (Returned (PyDict []), h2)
      else (Raised e, h2)
  end.
Proof.
  intros Hattr Hset. unfold update_instance_metadata. rewrite Hattr.
  unfold bind, try_except. cbn [negb]. rewrite Hset.
  destruct (conn_ex_set_metadata conn esh_instance data replace h1) as [[v|e] h2];
    [reflexivity|].
  destruct (contains ignorable (message e)); reflexivity.
Qed.

Lemma C8_incapable_witness :
  hasattr_ex_set_metadata Samples.incapable_conn = true /\
  set_name_if_given Samples.incapable_conn "i-1" [("color", PyStr "red")]
    Samples.fresh_host = (Returned PyNone, Samples.fresh_host) /\
  fst (update_instance_metadata Samples.incapable_conn "i-1" [("color", PyStr "red")]
         true Samples.fresh_host) = Returned (PyDict []).
Proof.
  split; [reflexivity|]. split; [reflexivity|].
  rewrite (C8_only_incapable_is_swallowed Samples.incapable_conn "i-1"
             [("color", PyStr "red")] true Samples.fresh_host Samples.fresh_host PyNone
             eq_refl eq_refl).
  reflexivity.
Defined.

(** The other side of C8 on a sample: a message without the phrase is raised
    again. *)
Example other_failures_are_raised_again :
  fst (update_instance_metadata Samples.failing_conn "i-1" [("color", PyStr "red")]
         true Samples.fresh_host) =
  Raised (DriverError "InvalidCredsError" "401 Unauthorized").
Proof. reflexivity. Qed.

(** C10, as the code has it. When the value of [name] in [data] is truthy and
    the connection has both methods, the rename is the first call and
    [ex_set_metadata] the second; if the rename returns and [ex_set_metadata]
    then raises, no further call is made: the cloud is left as the failed
    call left it after the rename, and the result is [{}] or the exception. *)
Theorem C10_rename_is_not_rolled_back {Cloud : Type} (conn : Connection Cloud)
    (esh_instance : string) (data : list (string * pyobj)) (replace : bool)
    (h : Host Cloud)
    (rename : string -> pyobj -> py Cloud pyobj)
    (set_metadata : string -> list (string * pyobj) -> bool -> py Cloud pyobj)
    (v : pyobj) (e : exn) (c1 c2 : Cloud) :
  truthy (dict_get data "name") = true ->
  ex_set_server_name conn = Some rename ->
  ex_set_metadata conn = Some set_metadata ->
  rename esh_instance (dict_get data "name") (cloud h) = (Returned v, c1) ->
  set_metadata esh_instance data replace c1 = (Raised e, c2) ->
  let r := update_instance_metadata conn esh_instance data replace h in
  driver_calls (snd r) =
    (driver_calls h ++
     [ call_ex_set_server_name esh_instance (dict_get data "name");
       call_ex_set_metadata esh_instance data replace ])%list /\
  cloud (snd r) = c2 /\
  fst r = if contains ignorable (message e) then Returned (PyDict []) else Raised e.
Proof.
  intros Hname Hren Hset Hr Hs. cbv zeta.
  unfold update_instance_metadata, hasattr_ex_set_metadata, set_name_if_given,
    conn_ex_set_server_name, conn_ex_set_metadata, bind, try_except, invoke.
  rewrite Hset, Hname, Hren. cbn [negb]. rewrite Hr. cbn [cloud]. rewrite Hs.
  destruct (contains ignorable (message e)); cbn [fst snd cloud driver_calls];
    rewrite <- app_assoc; repeat split.
Qed.

Lemma C10_rename_witness :
  let data := [("name", PyStr "new-name")] in
  let r := update_instance_metadata Samples.incapable_conn "i-1" data true
             Samples.fresh_host in
  truthy (dict_get data "name") = true /\
  driver_calls (snd r) =
    [ call_ex_set_server_name "i-1" (PyStr "new-name");
      call_ex_set_metadata "i-1" data true ] /\
  Samples.server_name (cloud (snd r)) = "new-name" /\
  fst r = Returned (PyDict []).
Proof.
  cbv zeta. split; [reflexivity|].
  destruct (C10_rename_is_not_rolled_back Samples.incapable_conn "i-1"
              [("name", PyStr "new-name")] true Samples.fresh_host
              Samples.rename_server Samples.incapable_set_metadata PyNone
              (DriverError "MalformedResponseError"
                 "The server is incapable of performing the request")
              {| Samples.server_name := "new-name"; Samples.metadata := [] |}
              {| Samples.server_name := "new-name"; Samples.metadata := [] |}
              eq_refl eq_refl eq_refl eq_refl eq_refl) as [Hcalls [Hcloud Hres]].
  split; [exact Hcalls|]. split; [rewrite Hcloud; reflexivity | exact Hres].
Defined.

(** C10, as stated, fails: [data] has the key [name], with an empty value;
    [data.get('name')] is falsy, the rename is never called and the server
    keeps its name. *)
Lemma C10_counterexample_empty_name :
  let data := [("name", PyStr "")] in
  let r := update_instance_metadata Samples.failing_conn "i-1" data true
             Samples.fresh_host in
  dict_has data "name" = true /\
  driver_calls (snd r) = [call_ex_set_metadata "i-1" data true] /\
  Samples.server_name (cloud (snd r)) = "old-name" /\
  fst r = Raised (DriverError "InvalidCredsError" "401 Unauthorized").
Proof. cbv zeta. repeat split. Qed.

End InstanceProofs.

(* ===================================================================== *)
(** ** Properties of the instance model and its utility functions *)
(* ===================================================================== *)

Module CoreInstanceProofs.

Import CoreInstance CoreInstanceTerms.

Lemma bind_returned {S A B} (c : py S A) (k : A -> py S B) s a s' :
  c s = (Returned a, s') -> bind c k s = k a s'.
Proof. intros E. unfold bind. rewrite E. reflexivity. Qed.

Lemma bind_raised {S A B} (c : py S A) (k : A -> py S B) s e s' :
  c s = (Raised e, s') -> bind c k s = (Raised e, s').
Proof. intros E. unfold bind. rewrite E. reflexivity. Qed.

Lemma nodup_map_inj {A B} (f : A -> B) (l : list A) x y :
  NoDup (map f l) -> In x l -> In y l -> f x = f y -> x = y.
Proof.
  induction l as [|a l IH]; simpl; intros Hnd Hx Hy E; [destruct Hx|].
  apply NoDup_cons in Hnd as [Hna Hnd].
  destruct Hx as [->|Hx], Hy as [->|Hy]; auto.
  - exfalso. apply Hna. rewrite E. apply list_elem_of_In, in_map, Hy.
  - exfalso. apply Hna. rewrite <- E. apply list_elem_of_In, in_map, Hx.
Qed.

Section Lookup.
Context `{Externals}.
Local Abbreviation Inst := (Instance Machine Time).

Lemma filter_none (a : string) (rows : list Inst) :
  (forall r, In r rows -> provider_alias r <> a) -> List.filter (has_alias a) rows = [].
Proof.
  induction rows as [|r rows IH]; intros Hno; simpl; [reflexivity|].
  unfold has_alias at 1. destruct (String.eqb_spec (provider_alias r) a) as [E|_].
  - destruct (Hno r (or_introl eq_refl) E).
  - apply IH. intros r' Hr'. apply Hno. right. exact Hr'.
Qed.

Lemma filter_cons_match (a : string) (r : Inst) (rows : list Inst) :
  provider_alias r = a ->
  List.filter (has_alias a) (r :: rows) = r :: List.filter (has_alias a) rows.
Proof. intros E. simpl. unfold has_alias at 1. rewrite E, String.eqb_refl. reflexivity. Qed.

Lemma filter_unique (a : string) (rows : list Inst) :
  NoDup (map provider_alias rows) -> (length (List.filter (has_alias a) rows) <= 1)%nat.
Proof.
  induction rows as [|r rows IH]; intros Hnd; simpl; [lia|].
  apply NoDup_cons in Hnd as [Hnr Hnd].
  unfold has_alias at 1. destruct (String.eqb_spec (provider_alias r) a) as [E|_].
  - rewrite filter_none; [simpl; lia|].
    intros r' Hr' E'. apply Hnr. rewrite E, <- E'.
    apply list_elem_of_In, in_map, Hr'.
  - apply IH, Hnd.
Qed.

(** What [findInstance] computes: the first row of the filter, and a
    warning when the filter has more than one row. *)
Lemma findInstance_run (a : string) (s : Site) :
  findInstance a s =
  (Returned (head (objects_filter a s)),
   if Nat.ltb 1 (length (objects_filter a s))
   then logged_site WARN "Multiple instances returned for alias - %s" [LStr a] s
   else s).
Proof.
  unfold findInstance, bind, gets.
  destruct (Nat.ltb 1 (length (objects_filter a s))); simpl;
    destruct (objects_filter a s); reflexivity.
Qed.

Lemma filter_head_split (a : string) (rows : list Inst) (i : Inst) :
  head (List.filter (has_alias a) rows) = Some i ->
  provider_alias i = a /\
  exists before after,
    rows = (before ++ i :: after)%list /\
    forall r, In r before -> provider_alias r <> a.
Proof.
  induction rows as [|r rows IH]; simpl; [discriminate|].
  unfold has_alias at 1. destruct (String.eqb_spec (provider_alias r) a) as [E|N].
  - simpl. intros [= <-]. split; [exact E|].
    exists [], rows. split; [reflexivity|]. intros r' [].
  - intros Hh. destruct (IH Hh) as [Ea [before [after [-> Hb]]]]. split; [exact Ea|].
    exists (r :: before), after. split; [reflexivity|].
    intros r' [<-|Hr']; [exact N | apply Hb, Hr'].
Qed.

Lemma filter_head_none (a : string) (rows : list Inst) :
  head (List.filter (has_alias a) rows) = None ->
  forall r, In r rows -> provider_alias r <> a.
Proof.
  induction rows as [|r rows IH]; simpl; [intros _ r []|].
  unfold has_alias at 1. destruct (String.eqb_spec (provider_alias r) a) as [E|N].
  - discriminate.
  - intros Hh r' [<-|Hr']; [exact N | apply (IH Hh), Hr'].
Qed.

End Lookup.

(** X1. [findInstance] never fails and never touches the table. It returns
    the first row, in table order, whose [provider_alias] is the alias asked
    for, and [None] exactly when no row has it. *)
Theorem findInstance_returns_first_match `{Externals} (a : string) (s : Site) :
  let r := findInstance a s in
  instances (snd r) = instances s /\
  match fst r with
  | Returned (Some i) =>
      provider_alias i = a /\
      exists before after,
        instances s = (before ++ i :: after)%list /\
        forall r', In r' before -> provider_alias r' <> a
  | Returned None => forall r', In r' (instances s) -> provider_alias r' <> a
  | Raised _ => False
  end.
Proof.
  cbv zeta. rewrite findInstance_run. cbn [fst snd]. split.
  - destruct (Nat.ltb 1 (length (objects_filter a s))); reflexivity.
  - unfold objects_filter.
    destruct (head (List.filter (has_alias a) (instances s))) as [i|] eqn:Hh.
    + apply filter_head_split, Hh.
    + apply filter_head_none, Hh.
Qed.

(** X2. With the aliases of the table pairwise different, as the column's
    [unique=True] keeps them, [findInstance] changes nothing at all: the
    warning about multiple instances is never logged. *)
Theorem findInstance_silent_when_unique `{Externals} (a : string) (s : Site) :
  NoDup (map provider_alias (instances s)) ->
  snd (findInstance a s) = s.
Proof.
  intros Hnd. rewrite findInstance_run. cbn [snd].
  pose proof (filter_unique a (instances s) Hnd) as Hle.
  unfold objects_filter.
  destruct (Nat.ltb_spec 1 (length (List.filter (has_alias a) (instances s))));
    [lia | reflexivity].
Qed.

Lemma findInstance_silent_witness :
  NoDup (map provider_alias (instances CoreSamples.site)) /\
  snd (@findInstance CoreSamples.externals "i-2" CoreSamples.site) = CoreSamples.site.
Proof.
  assert (Hnd : NoDup (map provider_alias (instances CoreSamples.site))).
  { simpl. repeat constructor; rewrite ?list_elem_of_In; simpl; intuition discriminate. }
  split; [exact Hnd|].
  apply (@findInstance_silent_when_unique CoreSamples.externals "i-2" CoreSamples.site Hnd).
Defined.

(** X3. When two rows or more carry the alias, [findInstance] logs the
    warning, once, and still returns the first of them. *)
Theorem findInstance_warns_on_duplicates `{Externals} (a : string) (s : Site)
    (before middle after : list (Instance Machine Time))
    (i j : Instance Machine Time) :
  instances s = (before ++ i :: middle ++ j :: after)%list ->
  provider_alias i = a ->
  provider_alias j = a ->
  (forall r, In r before -> provider_alias r <> a) ->
  findInstance a s =
  (Returned (Some i),
   logged_site WARN "Multiple instances returned for alias - %s" [LStr a] s).
Proof.
  intros Hrows Hi Hj Hb. rewrite findInstance_run. unfold objects_filter. rewrite Hrows.
  rewrite List.filter_app, (filter_none a before Hb), app_nil_l.
  rewrite (filter_cons_match a i _ Hi), List.filter_app, (filter_cons_match a j _ Hj).
  cbn [head length]. rewrite length_app. cbn [length].
  destruct (Nat.ltb_spec 1 (S (length (List.filter (has_alias a) middle) +
                               S (length (List.filter (has_alias a) after)))));
    [reflexivity | lia].
Qed.

Lemma findInstance_warns_witness :
  @findInstance CoreSamples.externals "i-1" CoreSamples.duplicated_site =
  (Returned (Some CoreSamples.row1),
   logged_site WARN "Multiple instances returned for alias - %s" [LStr "i-1"]
               CoreSamples.duplicated_site).
Proof.
  apply (@findInstance_warns_on_duplicates CoreSamples.externals "i-1"
           CoreSamples.duplicated_site [] [CoreSamples.row2] []
           CoreSamples.row1 CoreSamples.row3);
    [reflexivity | reflexivity | reflexivity | intros r []].
Defined.

(** *** Creating rows *)

Section Create.
Context `{Externals}.
Local Abbreviation Inst := (Instance Machine Time).

Lemma existsb_none {A} (f : A -> bool) (l : list A) :
  (forall x, In x l -> f x = false) -> existsb f l = false.
Proof.
  induction l as [|x l IH]; intros Hf; simpl; [reflexivity|].
  rewrite (Hf x (or_introl eq_refl)). apply IH. intros y Hy. apply Hf. right. exact Hy.
Qed.

Lemma existsb_some {A} (f : A -> bool) (l : list A) x :
  In x l -> f x = true -> existsb f l = true.
Proof. intros Hin Hf. apply existsb_exists. exists x. split; assumption. Qed.

Lemma absent_no_alias (a : string) (rows : list Inst) :
  (forall r, In r rows -> provider_alias r <> a) -> existsb (has_alias a) rows = false.
Proof.
  intros Hno. apply existsb_none. intros r Hr. unfold has_alias.
  destruct (String.eqb_spec (provider_alias r) a) as [E|_]; [destruct (Hno r Hr E)|reflexivity].
Qed.

(** Writing a row at its own key: every other row stays. *)
Lemma rewrite_row (rows before after : list Inst) (i row : Inst) :
  NoDup (map pk rows) ->
  rows = (before ++ i :: after)%list ->
  map (fun r => if Nat.eqb (pk r) (pk i) then row else r) rows =
  (before ++ row :: after)%list.
Proof.
  intros Hnd ->. rewrite map_app. simpl. rewrite Nat.eqb_refl.
  assert (Hother : forall l, (forall r, In r l -> pk r <> pk i) ->
            map (fun r => if Nat.eqb (pk r) (pk i) then row else r) l = l).
  { induction l as [|r l IH]; intros Hl; simpl; [reflexivity|].
    destruct (Nat.eqb_spec (pk r) (pk i)) as [E|_];
      [destruct (Hl r (or_introl eq_refl) E)|].
    rewrite IH; [reflexivity|]. intros r' Hr'. apply Hl. right. exact Hr'. }
  rewrite map_app in Hnd. simpl in Hnd.
  apply NoDup_app in Hnd as [_ [Hdisj Hnd]].
  apply NoDup_cons in Hnd as [Hni _].
  rewrite !Hother; [reflexivity| |].
  - intros r Hr E. apply Hni. rewrite <- E. apply list_elem_of_In, in_map, Hr.
  - intros r Hr E. apply (Hdisj (pk r)).
    + apply list_elem_of_In, in_map, Hr.
    + rewrite E. left.
Qed.

(** Saving a row of a well-formed table after a change that keeps its key
    and its alias: the row is rewritten in place and nothing else moves. *)
Lemma save_in_place (s : Site) (before after : list Inst) (i row : Inst) :
  well_formed s ->
  instances s = (before ++ i :: after)%list ->
  pk row = pk i ->
  provider_alias row = provider_alias i ->
  save row s =
  (Returned PyNone,
   with_instances (before ++ with_esh row None :: after)%list (next_pk s) s).
Proof.
  intros (Hpk & Hal & Hlt & _) Hrows Ek Ea. unfold save.
  assert (Hin : In i (instances s)) by (rewrite Hrows; apply in_elt).
  assert (Htaken : alias_taken row (instances s) = false).
  { apply existsb_none. intros r Hr. unfold has_alias.
    destruct (String.eqb_spec (provider_alias r) (provider_alias row)) as [E|_];
      [|reflexivity].
    rewrite Ea in E. rewrite (nodup_map_inj provider_alias _ r i Hal Hr Hin E).
    rewrite Ek, Nat.eqb_refl. reflexivity. }
  rewrite Htaken.
  rewrite (existsb_some _ _ i Hin) by (rewrite Ek; apply Nat.eqb_refl).
  rewrite Ek. rewrite (rewrite_row _ before after i _ Hpk Hrows).
  assert (Hmax : Nat.max (next_pk s) (S (pk i)) = next_pk s).
  { rewrite Forall_forall in Hlt. specialize (Hlt i (proj2 (list_elem_of_In _ _) Hin)). lia. }
  rewrite Hmax. reflexivity.
Qed.

Lemma well_formed_logged lv fmt args (s : Site) :
  well_formed s -> well_formed (logged_site lv fmt args s).
Proof. intros Hwf. exact Hwf. Qed.

Lemma well_formed_created (s : Site) (i : Inst) :
  well_formed s ->
  pk i = next_pk s ->
  esh i = None ->
  (forall r, In r (instances s) -> provider_alias r <> provider_alias i) ->
  well_formed (with_instances (instances s ++ [i])%list (S (next_pk s)) s).
Proof.
  intros (Hpk & Hal & Hlt & Hesh) Ek Ee Hno.
  unfold well_formed; simpl. rewrite !map_app. simpl. repeat split.
  - apply NoDup_app. split; [exact Hpk|]. split; [|repeat constructor; intros []%elem_of_nil].
    intros k Hk [->|[]%elem_of_nil]%elem_of_cons.
    apply list_elem_of_In, in_map_iff in Hk as [r [Er Hr]].
    rewrite Forall_forall in Hlt. specialize (Hlt r (proj2 (list_elem_of_In _ _) Hr)). lia.
  - apply NoDup_app. split; [exact Hal|]. split; [|repeat constructor; intros []%elem_of_nil].
    intros k Hk [->|[]%elem_of_nil]%elem_of_cons.
    apply list_elem_of_In, in_map_iff in Hk as [r [Er Hr]]. exact (Hno r Hr Er).
  - apply Forall_app. split.
    + eapply Forall_impl; [exact Hlt|]. simpl. intros r Hr. lia.
    + constructor; [lia | constructor].
  - apply Forall_app. split; [exact Hesh | constructor; [exact Ee | constructor]].
Qed.

(** What [createInstance] does when the alias is new to a well-formed
    table. *)
Lemma createInstance_run (s : Site) (provider_id a : string) (m : Machine)
    (ip n : string) (u : User) (t : Time) (tok : option string) :
  well_formed s ->
  (forall r, In r (instances s) -> provider_alias r <> a) ->
  createInstance provider_id a m ip n u t tok s =
  (Returned (new_row s a m ip n u t tok),
   logged_site DEBUG "New instance created - %s (Token = %s)" [LStr a; LToken tok]
     (with_instances (instances s ++ [new_row s a m ip n u t tok])%list
                     (S (next_pk s)) s)).
Proof.
  intros (Hpk & Hal & Hlt & Hesh) Hno. unfold createInstance.
  set (i := new_row s a m ip n u t tok).
  set (s1 := with_instances (instances s ++ [i])%list (S (next_pk s)) s).
  assert (Hcreate : objects_create n a m (Some ip) u tok t s = (Returned i, s1)).
  { unfold objects_create. rewrite (absent_no_alias a _ Hno). reflexivity. }
  rewrite (bind_returned _ _ _ _ _ Hcreate).
  assert (Hsave : save i s1 = (Returned PyNone, s1)).
  { assert (Hwf1 : well_formed s1).
    { apply well_formed_created; [repeat split; assumption | reflexivity | reflexivity |].
      exact Hno. }
    rewrite (save_in_place s1 (instances s) [] i i Hwf1 eq_refl eq_refl eq_refl).
    reflexivity. }
  rewrite (bind_returned _ _ _ _ _ Hsave). reflexivity.
Qed.

Lemma createInstance_taken (s : Site) (provider_id a : string) (m : Machine)
    (ip n : string) (u : User) (t : Time) (tok : option string) :
  existsb (has_alias a) (instances s) = true ->
  createInstance provider_id a m ip n u t tok s =
  (Raised (IntegrityError "column provider_alias is not unique"), s).
Proof.
  intros Hex. unfold createInstance, bind, objects_create. rewrite Hex. reflexivity.
Qed.

Lemma filter_other_alias (a b : string) (rows : list Inst) (i : Inst) :
  provider_alias i = a -> b <> a ->
  List.filter (has_alias b) (rows ++ [i]) = List.filter (has_alias b) rows.
Proof.
  intros Ea Hne. rewrite List.filter_app. simpl. unfold has_alias at 2.
  destruct (String.eqb_spec (provider_alias i) b) as [E|_];
    [destruct Hne; rewrite <- E; exact Ea | apply app_nil_r].
Qed.

End Create.

Lemma sample_site_well_formed : @well_formed CoreSamples.externals CoreSamples.site.
Proof.
  unfold well_formed. simpl. repeat split.
  - repeat constructor; rewrite ?list_elem_of_In; simpl; intuition discriminate.
  - repeat constructor; rewrite ?list_elem_of_In; simpl; intuition discriminate.
  - repeat (constructor; [simpl; lia|]). constructor.
  - repeat (constructor; [reflexivity|]). constructor.
Defined.

(** X4. In a well-formed table that does not hold the alias yet,
    [createInstance] appends one row with the next primary key and the
    columns it was given (no end date, [shell] and [vnc] off), keeps the
    table well-formed, and a [findInstance] of the alias then returns that
    row. *)
Theorem createInstance_then_findInstance `{Externals} (s : Site)
    (provider_id a : string) (m : Machine) (ip n : string) (u : User) (t : Time)
    (tok : option string) :
  well_formed s ->
  (forall r, In r (instances s) -> provider_alias r <> a) ->
  let i := new_row s a m ip n u t tok in
  let r := createInstance provider_id a m ip n u t tok s in
  fst r = Returned i /\
  instances (snd r) = (instances s ++ [i])%list /\
  next_pk (snd r) = S (next_pk s) /\
  well_formed (snd r) /\
  fst (findInstance a (snd r)) = Returned (Some i).
Proof.
  intros Hwf Hno. cbv zeta. rewrite (createInstance_run s provider_id a m ip n u t tok Hwf Hno).
  cbn [fst snd]. split; [reflexivity|]. split; [reflexivity|]. split; [reflexivity|].
  split.
  - apply well_formed_logged, well_formed_created; [exact Hwf|reflexivity|reflexivity|exact Hno].
  - rewrite findInstance_run. cbn [fst]. f_equal. unfold objects_filter. cbn [instances logged_site with_instances].
    rewrite List.filter_app, (filter_none a _ Hno). simpl.
    unfold has_alias. simpl. rewrite String.eqb_refl. reflexivity.
Qed.

Lemma createInstance_then_findInstance_witness :
  let r := @createInstance CoreSamples.externals "p-1" "i-3" "emi-3" "10.0.0.3" "cache"
             CoreSamples.alice ("2013-03-01T00:00:00Z", true) None CoreSamples.site in
  map provider_alias (instances (snd r)) = ["i-1"; "i-2"; "i-3"] /\
  map pk (instances (snd r)) = [1; 2; 3] /\
  next_pk (snd r) = 4.
Proof.
  pose proof sample_site_well_formed as Hwf.
  assert (Hno : forall r, In r (instances CoreSamples.site) -> provider_alias r <> "i-3").
  { intros r [<-|[<-|[]]]; discriminate. }
  destruct (@createInstance_then_findInstance CoreSamples.externals CoreSamples.site
              "p-1" "i-3" "emi-3" "10.0.0.3" "cache" CoreSamples.alice
              ("2013-03-01T00:00:00Z", true) None Hwf Hno) as (_ & Hrows & Hnext & _).
  cbv zeta. rewrite Hrows, Hnext. repeat split.
Defined.

(** X5. [createInstance] with an alias that a row already carries raises
    [IntegrityError] and leaves the site as it was: no second row, no log
    line. *)
Theorem createInstance_rejects_taken_alias `{Externals} (s : Site)
    (provider_id a : string) (m : Machine) (ip n : string) (u : User) (t : Time)
    (tok : option string) (r : Instance Machine Time) :
  In r (instances s) ->
  provider_alias r = a ->
  createInstance provider_id a m ip n u t tok s =
  (Raised (IntegrityError "column provider_alias is not unique"), s).
Proof.
  intros Hr Ea. apply createInstance_taken. apply (existsb_some _ _ r Hr).
  unfold has_alias. rewrite Ea. apply String.eqb_refl.
Qed.

Lemma createInstance_rejects_witness :
  @createInstance CoreSamples.externals "p-1" "i-2" "emi-3" "10.0.0.3" "cache"
    CoreSamples.alice ("2013-03-01T00:00:00Z", true) None CoreSamples.site =
  (Raised (IntegrityError "column provider_alias is not unique"), CoreSamples.site).
Proof.
  apply (@createInstance_rejects_taken_alias CoreSamples.externals CoreSamples.site
           "p-1" "i-2" "emi-3" "10.0.0.3" "cache" CoreSamples.alice
           ("2013-03-01T00:00:00Z", true) None CoreSamples.row2).
  - right. left. reflexivity.
  - reflexivity.
Defined.

(** X6. Whether it succeeds or not, [createInstance] for one alias does not
    change what [findInstance] returns for any other alias. *)
Theorem createInstance_keeps_other_aliases `{Externals} (s : Site)
    (provider_id a b : string) (m : Machine) (ip n : string) (u : User) (t : Time)
    (tok : option string) :
  well_formed s ->
  b <> a ->
  fst (findInstance b (snd (createInstance provider_id a m ip n u t tok s))) =
  fst (findInstance b s).
Proof.
  intros Hwf Hne. destruct (existsb (has_alias a) (instances s)) eqn:Hex.
  - rewrite (createInstance_taken s provider_id a m ip n u t tok Hex). reflexivity.
  - assert (Hno : forall r, In r (instances s) -> provider_alias r <> a).
    { intros r Hr E. assert (Ht : existsb (has_alias a) (instances s) = true).
      { apply (existsb_some _ _ r Hr). unfold has_alias. rewrite E. apply String.eqb_refl. }
      rewrite Hex in Ht. discriminate Ht. }
    rewrite (createInstance_run s provider_id a m ip n u t tok Hwf Hno).
    rewrite !findInstance_run. cbn [fst snd]. unfold objects_filter.
    cbn [instances logged_site with_instances].
    rewrite (filter_other_alias a b _ (new_row s a m ip n u t tok) eq_refl Hne). reflexivity.
Qed.

Lemma createInstance_keeps_witness :
  fst (@findInstance CoreSamples.externals "i-1"
         (snd (@createInstance CoreSamples.externals "p-1" "i-3" "emi-3" "10.0.0.3"
                 "cache" CoreSamples.alice ("2013-03-01T00:00:00Z", true) None
                 CoreSamples.site))) =
  Returned (Some CoreSamples.row1).
Proof.
  pose proof sample_site_well_formed as Hwf.
  rewrite (@createInstance_keeps_other_aliases CoreSamples.externals CoreSamples.site
             "p-1" "i-3" "i-1" "emi-3" "10.0.0.3" "cache" CoreSamples.alice
             ("2013-03-01T00:00:00Z", true) None Hwf ltac:(discriminate)).
  reflexivity.
Defined.

(** *** Converting an esh instance *)

Section Convert.
Context `{Externals}.
Local Abbreviation Inst := (Instance Machine Time).

Lemma logger_run lv fmt args (s : Site) :
  logger lv fmt args s = (Returned PyNone, logged_site lv fmt args s).
Proof. reflexivity. Qed.

Lemma head_filter_unique (a : string) (rows before after : list Inst) (i : Inst) :
  NoDup (map provider_alias rows) ->
  rows = (before ++ i :: after)%list ->
  provider_alias i = a ->
  head (List.filter (has_alias a) rows) = Some i.
Proof.
  intros Hnd -> Ea. rewrite List.filter_app, filter_none.
  - simpl. unfold has_alias. rewrite Ea, String.eqb_refl. reflexivity.
  - intros r Hr E. rewrite map_app in Hnd. simpl in Hnd.
    apply NoDup_app in Hnd as [_ [Hdisj _]].
    apply (Hdisj (provider_alias r)).
    + apply list_elem_of_In, in_map, Hr.
    + rewrite E, <- Ea. left.
Qed.

Lemma findInstance_found (a : string) (s : Site) (before after : list Inst) (i : Inst) :
  NoDup (map provider_alias (instances s)) ->
  instances s = (before ++ i :: after)%list ->
  provider_alias i = a ->
  findInstance a s = (Returned (Some i), s).
Proof.
  intros Hnd Hrows Ea. rewrite findInstance_run. unfold objects_filter.
  rewrite (head_filter_unique a _ before after i Hnd Hrows Ea).
  pose proof (filter_unique a (instances s) Hnd) as Hle.
  destruct (Nat.ltb_spec 1 (length (List.filter (has_alias a) (instances s))));
    [lia | reflexivity].
Qed.

Lemma findInstance_absent (a : string) (s : Site) :
  (forall r, In r (instances s) -> provider_alias r <> a) ->
  findInstance a s = (Returned None, s).
Proof.
  intros Hno. rewrite findInstance_run. unfold objects_filter.
  rewrite (filter_none a _ Hno). reflexivity.
Qed.

Lemma strip_stored (i : Inst) (ip : option string) :
  esh i = None -> with_esh (with_ip_address i ip) None = with_ip_address i ip.
Proof. intros E. destruct i; simpl in *. subst. reflexivity. Qed.

(** A known alias, on a driver without metadata. *)
Lemma convert_known (d : Connection Cloud) (e : Esh.Instance) (provider_id : string)
    (u : User) (tok : option string) (s : Site) (before after : list Inst) (i : Inst) :
  well_formed s ->
  instances s = (before ++ i :: after)%list ->
  provider_alias i = Esh.alias e ->
  ex_get_metadata d = None ->
  convertEshInstance d e provider_id u tok s =
  (Returned (with_esh (with_ip_address i (Some (first_ip e))) (Some e)),
   with_instances (before ++ with_ip_address i (Some (first_ip e)) :: after)%list
                  (next_pk s) (observed e s)).
Proof.
  intros Hwf Hrows Ea Hd. unfold convertEshInstance.
  rewrite (bind_returned _ _ _ _ _ (logger_run DEBUG "%s" [LEsh e] s)).
  rewrite (bind_returned _ _ _ _ _
             (logger_run DEBUG "%s" [LObj (PyDict (Esh.extra e))] _)).
  fold (observed e s).
  assert (Hwf' : well_formed (observed e s)) by exact Hwf.
  rewrite (bind_returned _ _ _ _ _
             (findInstance_found (Esh.alias e) (observed e s) before after i
                (proj1 (proj2 Hwf')) Hrows Ea)).
  rewrite (bind_returned _ _ (observed e s)
             (with_ip_address i (Some (first_ip e)))
             (with_instances (before ++ with_ip_address i (Some (first_ip e)) :: after)%list
                             (next_pk s) (observed e s))).
  - unfold set_instance_from_metadata. rewrite Hd. reflexivity.
  - rewrite (bind_returned _ _ (observed e s) PyNone
               (with_instances
                  (before ++ with_ip_address i (Some (first_ip e)) :: after)%list
                  (next_pk s) (observed e s))); [reflexivity|].
    rewrite (save_in_place (observed e s) before after i
               (with_ip_address i (Some (first_ip e))) Hwf' Hrows eq_refl eq_refl).
    rewrite strip_stored; [reflexivity|].
    destruct Hwf as (_ & _ & _ & Hesh). rewrite Forall_forall in Hesh.
    apply Hesh. rewrite Hrows. apply list_elem_of_In, in_elt.
Qed.

(** An unknown alias and no stamp to read. *)
Lemma convert_no_stamp (d : Connection Cloud) (e : Esh.Instance) (provider_id : string)
    (u : User) (tok : option string) (s : Site) :
  (forall r, In r (instances s) -> provider_alias r <> Esh.alias e) ->
  chosen_stamp (Esh.extra e) = None ->
  convertEshInstance d e provider_id u tok s = (Raised no_timestamp, observed e s).
Proof.
  intros Hno Hst. unfold convertEshInstance.
  rewrite (bind_returned _ _ _ _ _ (logger_run DEBUG "%s" [LEsh e] s)).
  rewrite (bind_returned _ _ _ _ _
             (logger_run DEBUG "%s" [LObj (PyDict (Esh.extra e))] _)).
  fold (observed e s).
  rewrite (bind_returned _ _ _ _ _ (findInstance_absent (Esh.alias e) (observed e s) Hno)).
  unfold chosen_stamp in Hst.
  destruct (dict_has (Esh.extra e) "launchdatetime"); [discriminate|].
  destruct (dict_has (Esh.extra e) "created"); [discriminate|].
  reflexivity.
Qed.

Lemma choose_stamp (extra : list (string * pyobj)) (stamp : pyobj) (s : Site) :
  chosen_stamp extra = Some stamp ->
  (if dict_has extra "launchdatetime"
   then ret (dict_get extra "launchdatetime")
   else if dict_has extra "created"
   then ret (dict_get extra "created")
   else raise no_timestamp) s = (Returned stamp, s).
Proof.
  unfold chosen_stamp. destruct (dict_has extra "launchdatetime").
  - intros [= <-]. reflexivity.
  - destruct (dict_has extra "created"); [intros [= <-]; reflexivity | discriminate].
Qed.

Lemma parse_stamp_parsed (stamp : string) (t : Time) (s : Site) :
  parsed stamp = Some t -> parse_stamp (PyStr stamp) s = (Returned t, s).
Proof.
  unfold parsed, parse_stamp.
  destruct (strptime stamp "%Y-%m-%dT%H:%M:%S.%fZ").
  - intros [= <-]. reflexivity.
  - intros ->. reflexivity.
Qed.

Lemma parse_stamp_unparsed (stamp : string) (s : Site) :
  parsed stamp = None ->
  parse_stamp (PyStr stamp) s = (Raised (ValueError "time data does not match format"), s).
Proof.
  unfold parsed, parse_stamp.
  destruct (strptime stamp "%Y-%m-%dT%H:%M:%S.%fZ"); [discriminate|].
  intros ->. reflexivity.
Qed.

(** An unknown alias whose stamp parses, on a driver without metadata. *)
Lemma convert_new (d : Connection Cloud) (e : Esh.Instance) (provider_id : string)
    (u : User) (tok : option string) (s : Site) (stamp : string) (t : Time)
    (m : Machine) (mt : MachineTables) :
  well_formed s ->
  (forall r, In r (instances s) -> provider_alias r <> Esh.alias e) ->
  chosen_stamp (Esh.extra e) = Some (PyStr stamp) ->
  parsed stamp = Some t ->
  convertEshMachine d (Esh.machine e) provider_id (machine_tables s) = (Returned m, mt) ->
  ex_get_metadata d = None ->
  let i := new_row s (Esh.alias e) m (first_ip e) (Esh.name e) u
                   (replace_tzinfo_utc t) tok in
  convertEshInstance d e provider_id u tok s =
  (Returned (with_esh i (Some e)), site_with_new e (PyStr stamp) t mt tok i s).
Proof.
  intros Hwf Hno Hst Hp Hm Hd. cbv zeta. unfold convertEshInstance.
  rewrite (bind_returned _ _ _ _ _ (logger_run DEBUG "%s" [LEsh e] s)).
  rewrite (bind_returned _ _ _ _ _
             (logger_run DEBUG "%s" [LObj (PyDict (Esh.extra e))] _)).
  fold (observed e s).
  rewrite (bind_returned _ _ _ _ _ (findInstance_absent (Esh.alias e) (observed e s) Hno)).
  set (s3 := logged_site DEBUG "START: %s" [LTime (replace_tzinfo_utc t)]
               (logged_site DEBUG "CREATED: %s" [LObj (PyStr stamp)] (observed e s))).
  set (s4 := {| instances := instances s; next_pk := next_pk s; machine_tables := mt;
                cloud := cloud s; logs := logs s3 |}).
  set (i := new_row s (Esh.alias e) m (first_ip e) (Esh.name e) u
                    (replace_tzinfo_utc t) tok).
  rewrite (bind_returned _ _ (observed e s) i (site_with_new e (PyStr stamp) t mt tok i s)).
  - unfold set_instance_from_metadata. rewrite Hd. reflexivity.
  - rewrite (bind_returned _ _ _ _ _ (choose_stamp _ _ (observed e s) Hst)).
    rewrite (bind_returned _ _ _ _ _ (parse_stamp_parsed stamp t (observed e s) Hp)).
    rewrite (bind_returned _ _ _ _ _
               (logger_run DEBUG "CREATED: %s" [LObj (PyStr stamp)] (observed e s))).
    rewrite (bind_returned _ _ _ _ _
               (logger_run DEBUG "START: %s" [LTime (replace_tzinfo_utc t)] _)).
    fold s3.
    rewrite (bind_returned _ _ s3 m s4).
    + assert (Hwf4 : well_formed s4) by exact Hwf.
      rewrite (createInstance_run s4 provider_id (Esh.alias e) m (first_ip e)
                 (Esh.name e) u (replace_tzinfo_utc t) tok Hwf4 Hno).
      reflexivity.
    + unfold on_machine_tables. cbn [machine_tables s3 logged_site observed].
      rewrite Hm. reflexivity.
Qed.

(** A stamp that is not a string. *)
Lemma convert_bad_stamp (d : Connection Cloud) (e : Esh.Instance) (provider_id : string)
    (u : User) (tok : option string) (s : Site) (stamp : pyobj) :
  (forall r, In r (instances s) -> provider_alias r <> Esh.alias e) ->
  chosen_stamp (Esh.extra e) = Some stamp ->
  (forall st, stamp <> PyStr st) ->
  convertEshInstance d e provider_id u tok s =
  (Raised (TypeError "strptime() argument 1 must be string"), observed e s).
Proof.
  intros Hno Hst Hbad. unfold convertEshInstance.
  rewrite (bind_returned _ _ _ _ _ (logger_run DEBUG "%s" [LEsh e] s)).
  rewrite (bind_returned _ _ _ _ _
             (logger_run DEBUG "%s" [LObj (PyDict (Esh.extra e))] _)).
  fold (observed e s).
  rewrite (bind_returned _ _ _ _ _ (findInstance_absent (Esh.alias e) (observed e s) Hno)).
  apply bind_raised.
  rewrite (bind_returned _ _ _ _ _ (choose_stamp _ _ (observed e s) Hst)).
  apply bind_raised.
  destruct stamp; try reflexivity. destruct (Hbad s0 eq_refl).
Qed.

(** A stamp that neither format accepts. *)
Lemma convert_unparsed (d : Connection Cloud) (e : Esh.Instance) (provider_id : string)
    (u : User) (tok : option string) (s : Site) (stamp : string) :
  (forall r, In r (instances s) -> provider_alias r <> Esh.alias e) ->
  chosen_stamp (Esh.extra e) = Some (PyStr stamp) ->
  parsed stamp = None ->
  convertEshInstance d e provider_id u tok s =
  (Raised (ValueError "time data does not match format"), observed e s).
Proof.
  intros Hno Hst Hp. unfold convertEshInstance.
  rewrite (bind_returned _ _ _ _ _ (logger_run DEBUG "%s" [LEsh e] s)).
  rewrite (bind_returned _ _ _ _ _
             (logger_run DEBUG "%s" [LObj (PyDict (Esh.extra e))] _)).
  fold (observed e s).
  rewrite (bind_returned _ _ _ _ _ (findInstance_absent (Esh.alias e) (observed e s) Hno)).
  apply bind_raised.
  rewrite (bind_returned _ _ _ _ _ (choose_stamp _ _ (observed e s) Hst)).
  apply bind_raised. apply parse_stamp_unparsed, Hp.
Qed.

(** A machine that cannot be converted. *)
Lemma convert_machine_fails (d : Connection Cloud) (e : Esh.Instance)
    (provider_id : string) (u : User) (tok : option string) (s : Site) (stamp : string)
    (t : Time) (err : exn) (mt : MachineTables) :
  (forall r, In r (instances s) -> provider_alias r <> Esh.alias e) ->
  chosen_stamp (Esh.extra e) = Some (PyStr stamp) ->
  parsed stamp = Some t ->
  convertEshMachine d (Esh.machine e) provider_id (machine_tables s) = (Raised err, mt) ->
  convertEshInstance d e provider_id u tok s =
  (Raised err,
   {| instances := instances s; next_pk := next_pk s; machine_tables := mt;
      cloud := cloud s;
      logs := logs (logged_site DEBUG "START: %s" [LTime (replace_tzinfo_utc t)]
                     (logged_site DEBUG "CREATED: %s" [LObj (PyStr stamp)]
                        (observed e s))) |}).
Proof.
  intros Hno Hst Hp Hm. unfold convertEshInstance.
  rewrite (bind_returned _ _ _ _ _ (logger_run DEBUG "%s" [LEsh e] s)).
  rewrite (bind_returned _ _ _ _ _
             (logger_run DEBUG "%s" [LObj (PyDict (Esh.extra e))] _)).
  fold (observed e s).
  rewrite (bind_returned _ _ _ _ _ (findInstance_absent (Esh.alias e) (observed e s) Hno)).
  apply bind_raised.
  rewrite (bind_returned _ _ _ _ _ (choose_stamp _ _ (observed e s) Hst)).
  rewrite (bind_returned _ _ _ _ _ (parse_stamp_parsed stamp t (observed e s) Hp)).
  rewrite (bind_returned _ _ _ _ _
             (logger_run DEBUG "CREATED: %s" [LObj (PyStr stamp)] (observed e s))).
  rewrite (bind_returned _ _ _ _ _
             (logger_run DEBUG "START: %s" [LTime (replace_tzinfo_utc t)] _)).
  apply bind_raised. unfold on_machine_tables.
  cbn [machine_tables logged_site observed]. rewrite Hm. reflexivity.
Qed.

Lemma well_formed_rewritten (s : Site) (before after : list Inst) (i row : Inst) :
  well_formed s ->
  instances s = (before ++ i :: after)%list ->
  pk row = pk i ->
  provider_alias row = provider_alias i ->
  esh row = None ->
  well_formed (with_instances (before ++ row :: after)%list (next_pk s) s).
Proof.
  intros (Hpk & Hal & Hlt & Hesh) Hrows Ek Ea Ee.
  rewrite Hrows in Hpk, Hal, Hlt, Hesh.
  unfold well_formed; simpl. rewrite !map_app in *. simpl in *. rewrite Ek, Ea.
  repeat split; try assumption.
  - apply Forall_app in Hlt as [Hb Ha]. apply Forall_app. split; [exact Hb|].
    apply Forall_cons in Ha as [Hi Ha]. apply Forall_cons. split; [lia | exact Ha].
  - apply Forall_app in Hesh as [Hb Ha]. apply Forall_app. split; [exact Hb|].
    apply Forall_cons in Ha as [_ Ha]. apply Forall_cons. split; [exact Ee | exact Ha].
Qed.

Lemma alias_split (a : string) (rows : list Inst) :
  existsb (has_alias a) rows = true ->
  exists before i after, rows = (before ++ i :: after)%list /\ provider_alias i = a.
Proof.
  intros Hex. apply existsb_exists in Hex as [i [Hin Hi]].
  apply in_split in Hin as [before [after ->]].
  exists before, i, after. split; [reflexivity|].
  unfold has_alias in Hi. apply String.eqb_eq, Hi.
Qed.

Lemma alias_absent (a : string) (rows : list Inst) :
  existsb (has_alias a) rows = false ->
  forall r, In r rows -> provider_alias r <> a.
Proof.
  intros Hex r Hr E.
  assert (Ht : existsb (has_alias a) rows = true).
  { apply (existsb_some _ _ r Hr). unfold has_alias. rewrite E. apply String.eqb_refl. }
  rewrite Hex in Ht. discriminate Ht.
Qed.

End Convert.

(** X7. For an alias the table knows, [convertEshInstance] (on a driver
    without [ex_get_metadata]) rewrites the address of that row to the first
    public address, else the first private one, else [0.0.0.0], and returns
    the row with the esh instance attached. No row is added, the machine is
    not converted, and the time stamps of the esh instance are not read: the
    call succeeds whatever [extra] holds. *)
Theorem convertEshInstance_updates_known_alias `{Externals} (d : Connection Cloud)
    (e : Esh.Instance) (provider_id : string) (u : User) (tok : option string)
    (s : Site) (before after : list (Instance Machine Time))
    (i : Instance Machine Time) :
  well_formed s ->
  instances s = (before ++ i :: after)%list ->
  provider_alias i = Esh.alias e ->
  ex_get_metadata d = None ->
  let r := convertEshInstance d e provider_id u tok s in
  let i' := with_ip_address i (Some (first_ip e)) in
  fst r = Returned (with_esh i' (Some e)) /\
  instances (snd r) = (before ++ i' :: after)%list /\
  next_pk (snd r) = next_pk s /\
  machine_tables (snd r) = machine_tables s /\
  well_formed (snd r).
Proof.
  intros Hwf Hrows Ea Hd. cbv zeta.
  rewrite (convert_known d e provider_id u tok s before after i Hwf Hrows Ea Hd).
  cbn [fst snd]. do 4 (split; [reflexivity|]).
  apply (well_formed_rewritten (observed e s) before after i); try reflexivity.
  - exact Hwf.
  - exact Hrows.
  - destruct Hwf as (_ & _ & _ & Hesh). rewrite Forall_forall in Hesh.
    apply (Hesh i). rewrite Hrows. apply list_elem_of_In, in_elt.
Qed.

Lemma convertEshInstance_known_witness :
  let e := CoreSamples.esh_of "i-2" [] ["10.0.0.2"; "10.0.0.9"] [] in
  let r := @convertEshInstance CoreSamples.externals CoreSamples.plain_driver e "p-1"
             CoreSamples.alice None CoreSamples.site in
  instances (snd r) =
    [CoreSamples.row1; with_ip_address CoreSamples.row2 (Some "10.0.0.2")] /\
  next_pk (snd r) = 3.
Proof.
  cbv zeta.
  destruct (@convertEshInstance_updates_known_alias CoreSamples.externals
              CoreSamples.plain_driver
              (CoreSamples.esh_of "i-2" [] ["10.0.0.2"; "10.0.0.9"] []) "p-1"
              CoreSamples.alice None CoreSamples.site [CoreSamples.row1] []
              CoreSamples.row2 sample_site_well_formed eq_refl eq_refl eq_refl)
    as (_ & Hrows & Hnext & _).
  split; [exact Hrows | exact Hnext].
Defined.

(** X8. For an alias the table does not know, when [extra] holds neither
    [launchdatetime] nor [created], [convertEshInstance] raises the
    exception of its [else] branch; no row is created, the machine is not
    converted, and all that happened is the two opening debug lines. *)
Theorem convertEshInstance_requires_timestamp `{Externals} (d : Connection Cloud)
    (e : Esh.Instance) (provider_id : string) (u : User) (tok : option string)
    (s : Site) :
  (forall r, In r (instances s) -> provider_alias r <> Esh.alias e) ->
  dict_has (Esh.extra e) "launchdatetime" = false ->
  dict_has (Esh.extra e) "created" = false ->
  convertEshInstance d e provider_id u tok s = (Raised no_timestamp, observed e s).
Proof.
  intros Hno Hl Hc. apply convert_no_stamp; [exact Hno|].
  unfold chosen_stamp. rewrite Hl, Hc. reflexivity.
Qed.

Lemma convertEshInstance_requires_timestamp_witness :
  let e := CoreSamples.esh_of "i-9" ["1.2.3.4"] [] [("launched", PyStr "yesterday")] in
  @convertEshInstance CoreSamples.externals CoreSamples.plain_driver e "p-1"
    CoreSamples.alice None CoreSamples.site =
  (Raised no_timestamp, observed e CoreSamples.site).
Proof.
  cbv zeta.
  apply (@convertEshInstance_requires_timestamp CoreSamples.externals).
  - intros r [<-|[<-|[]]]; discriminate.
  - reflexivity.
  - reflexivity.
Defined.

(** X9. In a well-formed table, on a driver without [ex_get_metadata], for
    an alias the table does not know: when [extra] holds [launchdatetime],
    that stamp is the one parsed, whatever [created] holds; once the stamp
    parses and the machine converts, one row is appended with the esh
    instance's alias and name, the first address, the converted machine and
    the parsed time made UTC; the row is returned with the esh instance
    attached, and [findInstance] then finds it. *)
Theorem convertEshInstance_creates_from_launchdatetime `{Externals}
    (d : Connection Cloud) (e : Esh.Instance) (provider_id : string) (u : User)
    (tok : option string) (s : Site) (stamp : string) (t : Time) (m : Machine)
    (mt : MachineTables) :
  well_formed s ->
  (forall r, In r (instances s) -> provider_alias r <> Esh.alias e) ->
  dict_has (Esh.extra e) "launchdatetime" = true ->
  dict_get (Esh.extra e) "launchdatetime" = PyStr stamp ->
  parsed stamp = Some t ->
  convertEshMachine d (Esh.machine e) provider_id (machine_tables s) = (Returned m, mt) ->
  ex_get_metadata d = None ->
  let i := new_row s (Esh.alias e) m (first_ip e) (Esh.name e) u
                   (replace_tzinfo_utc t) tok in
  let r := convertEshInstance d e provider_id u tok s in
  fst r = Returned (with_esh i (Some e)) /\
  instances (snd r) = (instances s ++ [i])%list /\
  machine_tables (snd r) = mt /\
  fst (findInstance (Esh.alias e) (snd r)) = Returned (Some i).
Proof.
  intros Hwf Hno Hl Hg Hp Hm Hd. cbv zeta.
  assert (Hst : chosen_stamp (Esh.extra e) = Some (PyStr stamp)).
  { unfold chosen_stamp. rewrite Hl, Hg. reflexivity. }
  rewrite (convert_new d e provider_id u tok s stamp t m mt Hwf Hno Hst Hp Hm Hd).
  cbn [fst snd]. repeat split.
  rewrite findInstance_run. cbn [fst]. f_equal. unfold objects_filter.
  cbn [instances site_with_new logged_site].
  rewrite List.filter_app, (filter_none _ _ Hno). simpl.
  unfold has_alias. simpl. rewrite String.eqb_refl. reflexivity.
Qed.

Lemma convertEshInstance_launchdatetime_witness :
  let e := CoreSamples.esh_of "i-9" ["1.2.3.4"] ["10.0.0.9"]
             [ ("created", PyStr "2013-01-01T01:01:01Z");
               ("launchdatetime", PyStr "2013-05-05T05:05:05.000Z") ] in
  let r := @convertEshInstance CoreSamples.externals CoreSamples.plain_driver e "p-1"
             CoreSamples.alice (Some "t-9") CoreSamples.site in
  map (fun i => (pk i, provider_alias i, ip_address i, start_date i)) (instances (snd r)) =
    [ (1, "i-1", Some "10.0.0.1", ("2013-01-01T00:00:00Z", true));
      (2, "i-2", None, ("2013-02-01T00:00:00Z", true));
      (3, "i-9", Some "1.2.3.4", ("2013-05-05T05:05:05.000Z", true)) ] /\
  machine_tables (snd r) = ["emi-9"].
Proof.
  cbv zeta.
  destruct (@convertEshInstance_creates_from_launchdatetime CoreSamples.externals
              CoreSamples.plain_driver
              (CoreSamples.esh_of "i-9" ["1.2.3.4"] ["10.0.0.9"]
                 [ ("created", PyStr "2013-01-01T01:01:01Z");
                   ("launchdatetime", PyStr "2013-05-05T05:05:05.000Z") ])
              "p-1" CoreSamples.alice (Some "t-9") CoreSamples.site
              "2013-05-05T05:05:05.000Z" ("2013-05-05T05:05:05.000Z", false)
              "emi-9" ["emi-9"] sample_site_well_formed
              ltac:(intros r [<-|[<-|[]]]; discriminate)
              eq_refl eq_refl eq_refl eq_refl eq_refl)
    as (_ & Hrows & Hmt & _).
  rewrite Hrows, Hmt. split; reflexivity.
Defined.

(** X10. In a well-formed table, on a driver without [ex_get_metadata], for
    an alias the table does not know: when [extra] has no [launchdatetime]
    but has [created], the [created] stamp is the one parsed; once it parses
    and the machine converts, one row is appended from it and returned with
    the esh instance attached. *)
Theorem convertEshInstance_creates_from_created `{Externals}
    (d : Connection Cloud) (e : Esh.Instance) (provider_id : string) (u : User)
    (tok : option string) (s : Site) (stamp : string) (t : Time) (m : Machine)
    (mt : MachineTables) :
  well_formed s ->
  (forall r, In r (instances s) -> provider_alias r <> Esh.alias e) ->
  dict_has (Esh.extra e) "launchdatetime" = false ->
  dict_has (Esh.extra e) "created" = true ->
  dict_get (Esh.extra e) "created" = PyStr stamp ->
  parsed stamp = Some t ->
  convertEshMachine d (Esh.machine e) provider_id (machine_tables s) = (Returned m, mt) ->
  ex_get_metadata d = None ->
  let i := new_row s (Esh.alias e) m (first_ip e) (Esh.name e) u
                   (replace_tzinfo_utc t) tok in
  let r := convertEshInstance d e provider_id u tok s in
  fst r = Returned (with_esh i (Some e)) /\
  instances (snd r) = (instances s ++ [i])%list /\
  machine_tables (snd r) = mt.
Proof.
  intros Hwf Hno Hl Hc Hg Hp Hm Hd. cbv zeta.
  assert (Hst : chosen_stamp (Esh.extra e) = Some (PyStr stamp)).
  { unfold chosen_stamp. rewrite Hl, Hc, Hg. reflexivity. }
  rewrite (convert_new d e provider_id u tok s stamp t m mt Hwf Hno Hst Hp Hm Hd).
  cbn [fst snd]. repeat split.
Qed.

Lemma convertEshInstance_created_witness :
  let e := CoreSamples.esh_of "i-9" [] [] [("created", PyStr "2013-01-01T01:01:01Z")] in
  let r := @convertEshInstance CoreSamples.externals CoreSamples.plain_driver e "p-1"
             CoreSamples.alice None CoreSamples.site in
  map (fun i => (pk i, provider_alias i, ip_address i, start_date i)) (instances (snd r)) =
    [ (1, "i-1", Some "10.0.0.1", ("2013-01-01T00:00:00Z", true));
      (2, "i-2", None, ("2013-02-01T00:00:00Z", true));
      (3, "i-9", Some "0.0.0.0", ("2013-01-01T01:01:01Z", true)) ].
Proof.
  cbv zeta.
  destruct (@convertEshInstance_creates_from_created CoreSamples.externals
              CoreSamples.plain_driver
              (CoreSamples.esh_of "i-9" [] [] [("created", PyStr "2013-01-01T01:01:01Z")])
              "p-1" CoreSamples.alice None CoreSamples.site
              "2013-01-01T01:01:01Z" ("2013-01-01T01:01:01Z", false)
              "emi-9" ["emi-9"] sample_site_well_formed
              ltac:(intros r [<-|[<-|[]]]; discriminate)
              eq_refl eq_refl eq_refl eq_refl eq_refl eq_refl)
    as (_ & Hrows & _).
  rewrite Hrows. reflexivity.
Defined.

(** X11. When the stamp is a string that neither format accepts, the
    [ValueError] of the second [strptime] reaches the caller: no row is
    created and the machine is not converted. *)
Theorem convertEshInstance_unparsable_stamp `{Externals} (d : Connection Cloud)
    (e : Esh.Instance) (provider_id : string) (u : User) (tok : option string)
    (s : Site) (stamp : string) :
  (forall r, In r (instances s) -> provider_alias r <> Esh.alias e) ->
  chosen_stamp (Esh.extra e) = Some (PyStr stamp) ->
  strptime stamp "%Y-%m-%dT%H:%M:%S.%fZ" = None ->
  strptime stamp "%Y-%m-%dT%H:%M:%SZ" = None ->
  convertEshInstance d e provider_id u tok s =
  (Raised (ValueError "time data does not match format"), observed e s).
Proof.
  intros Hno Hst H1 H2. apply (convert_unparsed d e provider_id u tok s stamp Hno Hst).
  unfold parsed. rewrite H1. exact H2.
Qed.

Lemma convertEshInstance_unparsable_witness :
  let e := CoreSamples.esh_of "i-9" [] [] [("created", PyStr "")] in
  let sp := fun _ _ : string => @None (string * bool) in
  let ext := {| Machine := string; Time := string * bool; Errors := string;
                MachineTables := list string; Cloud := list string;
                md5_hexdigest := fun _ => "";
                strptime := sp;
                replace_tzinfo_utc := fun t => t;
                convertEshMachine := fun _ m _ => ret (Esh.machine_name m);
                InstanceSerializer := fun i _ => inr i;
                serializer_save := fun _ rows => (Returned PyNone, rows) |} in
  let s := @Build_Site ext [] 1 [] [] [] in
  @convertEshInstance ext CoreSamples.plain_driver e "p-1" CoreSamples.alice None s =
  (Raised (ValueError "time data does not match format"), @observed ext e s).
Proof.
  cbv zeta.
  apply (@convertEshInstance_unparsable_stamp
           {| Machine := string; Time := string * bool; Errors := string;
              MachineTables := list string; Cloud := list string;
              md5_hexdigest := fun _ => "";
              strptime := fun _ _ : string => @None (string * bool);
              replace_tzinfo_utc := fun t => t;
              convertEshMachine := fun _ m _ => ret (Esh.machine_name m);
              InstanceSerializer := fun i _ => inr i;
              serializer_save := fun _ rows => (Returned PyNone, rows) |}
           CoreSamples.plain_driver
           (CoreSamples.esh_of "i-9" [] [] [("created", PyStr "")]) "p-1"
           CoreSamples.alice None _ "");
    [intros r [] | reflexivity | reflexivity | reflexivity].
Defined.

(** X12. In a well-formed table, on a driver without [ex_get_metadata]:
    when a first call for an alias the table does not know creates its row
    (the stamp parses, the machine converts), a second call with the same
    esh instance creates nothing: it finds the row of the first, returns the
    same instance and leaves the table, the next key and the machine tables
    as the first call left them. *)
Theorem convertEshInstance_twice_creates_once `{Externals} (d : Connection Cloud)
    (e : Esh.Instance) (provider_id : string) (u : User) (tok : option string)
    (s : Site) (stamp : string) (t : Time) (m : Machine) (mt : MachineTables) :
  well_formed s ->
  (forall r, In r (instances s) -> provider_alias r <> Esh.alias e) ->
  chosen_stamp (Esh.extra e) = Some (PyStr stamp) ->
  parsed stamp = Some t ->
  convertEshMachine d (Esh.machine e) provider_id (machine_tables s) = (Returned m, mt) ->
  ex_get_metadata d = None ->
  let first_call := convertEshInstance d e provider_id u tok s in
  let second_call := convertEshInstance d e provider_id u tok (snd first_call) in
  fst second_call = fst first_call /\
  instances (snd second_call) = instances (snd first_call) /\
  next_pk (snd second_call) = next_pk (snd first_call) /\
  machine_tables (snd second_call) = machine_tables (snd first_call).
Proof.
  intros Hwf Hno Hst Hp Hm Hd. cbv zeta.
  rewrite (convert_new d e provider_id u tok s stamp t m mt Hwf Hno Hst Hp Hm Hd).
  cbn [fst snd].
  set (i := new_row s (Esh.alias e) m (first_ip e) (Esh.name e) u
                    (replace_tzinfo_utc t) tok).
  set (s1 := site_with_new e (PyStr stamp) t mt tok i s).
  assert (Hwf1 : well_formed s1).
  { exact (well_formed_created s i Hwf eq_refl eq_refl Hno). }
  rewrite (convert_known d e provider_id u tok s1 (instances s) [] i Hwf1
             eq_refl eq_refl Hd).
  cbn [fst snd]. repeat split.
Qed.

Lemma convertEshInstance_twice_witness :
  let e := CoreSamples.esh_of "i-9" ["1.2.3.4"] []
             [("launchdatetime", PyStr "2013-05-05T05:05:05.000Z")] in
  let first_call := @convertEshInstance CoreSamples.externals CoreSamples.plain_driver e
                      "p-1" CoreSamples.alice None CoreSamples.site in
  let second_call := @convertEshInstance CoreSamples.externals CoreSamples.plain_driver e
                       "p-1" CoreSamples.alice None (snd first_call) in
  fst second_call = fst first_call /\
  instances (snd second_call) = instances (snd first_call).
Proof.
  cbv zeta.
  destruct (@convertEshInstance_twice_creates_once CoreSamples.externals
              CoreSamples.plain_driver
              (CoreSamples.esh_of "i-9" ["1.2.3.4"] []
                 [("launchdatetime", PyStr "2013-05-05T05:05:05.000Z")])
              "p-1" CoreSamples.alice None CoreSamples.site
              "2013-05-05T05:05:05.000Z" ("2013-05-05T05:05:05.000Z", false)
              "emi-9" ["emi-9"] sample_site_well_formed
              ltac:(intros r [<-|[<-|[]]]; discriminate)
              eq_refl eq_refl eq_refl eq_refl) as (H1 & H2 & _).
  split; [exact H1 | exact H2].
Defined.

(** X13. On a driver without [ex_get_metadata], [convertEshInstance] keeps
    the table well-formed whatever the esh instance holds and however the
    call ends (a row rewritten, a row created, or an exception on the way):
    primary keys and aliases stay unique, keys stay below the next key, and
    no stored row carries an [esh]. *)
Theorem convertEshInstance_keeps_table_well_formed `{Externals} (d : Connection Cloud)
    (e : Esh.Instance) (provider_id : string) (u : User) (tok : option string)
    (s : Site) :
  well_formed s ->
  ex_get_metadata d = None ->
  well_formed (snd (convertEshInstance d e provider_id u tok s)).
Proof.
  intros Hwf Hd.
  destruct (existsb (has_alias (Esh.alias e)) (instances s)) eqn:Hex.
  - destruct (alias_split _ _ Hex) as (before & i & after & Hrows & Ea).
    apply (convertEshInstance_updates_known_alias d e provider_id u tok s before after i
             Hwf Hrows Ea Hd).
  - pose proof (alias_absent _ _ Hex) as Hno.
    destruct (chosen_stamp (Esh.extra e)) as [stamp|] eqn:Hst.
    + destruct stamp as [| | |stamp| |].
      1-3, 5-6: erewrite convert_bad_stamp by (try eassumption; intros st; discriminate);
                exact Hwf.
      destruct (parsed stamp) as [t|] eqn:Hp.
      * destruct (convertEshMachine d (Esh.machine e) provider_id (machine_tables s))
          as [[m|err] mt] eqn:Hm.
        -- rewrite (convert_new d e provider_id u tok s stamp t m mt Hwf Hno Hst Hp Hm Hd).
           cbn [snd].
           exact (well_formed_created s
                    (new_row s (Esh.alias e) m (first_ip e) (Esh.name e) u
                             (replace_tzinfo_utc t) tok) Hwf eq_refl eq_refl Hno).
        -- rewrite (convert_machine_fails d e provider_id u tok s stamp t err mt
                      Hno Hst Hp Hm).
           exact Hwf.
      * rewrite (convert_unparsed d e provider_id u tok s stamp Hno Hst Hp). exact Hwf.
    + rewrite (convert_no_stamp d e provider_id u tok s Hno Hst). exact Hwf.
Qed.

Lemma convertEshInstance_well_formed_witness :
  @well_formed CoreSamples.externals
    (snd (@convertEshInstance CoreSamples.externals CoreSamples.plain_driver
            (CoreSamples.esh_of "i-1" [] [] []) "p-1" CoreSamples.alice None
            CoreSamples.site)).
Proof.
  apply (@convertEshInstance_keeps_table_well_formed CoreSamples.externals
           CoreSamples.plain_driver (CoreSamples.esh_of "i-1" [] [] []) "p-1"
           CoreSamples.alice None CoreSamples.site sample_site_well_formed eq_refl).
Defined.

(** *** Metadata and methods *)

(** X14. Whatever the driver and the serializer do, an instance that
    [set_instance_from_metadata] returns carries the [esh] of the instance
    it was given; and unless the serializer was valid it is that very
    instance. *)
Theorem set_instance_from_metadata_keeps_esh `{Externals} (d : Connection Cloud)
    (core_instance : Instance Machine Time) (s : Site) :
  match fst (set_instance_from_metadata d core_instance s) with
  | Returned result =>
      esh result = esh core_instance /\
      (result = core_instance \/
       exists metadata object,
         InstanceSerializer core_instance metadata = inr object /\
         result = with_esh object (esh core_instance))
  | Raised _ => True
  end.
Proof.
  unfold set_instance_from_metadata.
  destruct (ex_get_metadata d) as [get|]; [|simpl; auto].
  unfold bind, on_cloud.
  destruct (get (esh core_instance) (cloud s)) as [[metadata|err] cl]; [|exact I].
  destruct (InstanceSerializer core_instance metadata) as [errors|object] eqn:Hser.
  - simpl. auto.
  - unfold run_serializer_save. cbn [instances].
    destruct (serializer_save object (instances s)) as [[v|err] rows]; [|exact I].
    simpl. split; [reflexivity|]. right. exists metadata, object. auto.
Qed.

(** X15. When the metadata the driver returns does not pass the serializer,
    [set_instance_from_metadata] returns the instance it was given and does
    not touch the table: it only logs a warning with the errors. *)
Theorem set_instance_from_metadata_invalid `{Externals} (d : Connection Cloud)
    (core_instance : Instance Machine Time) (s : Site)
    (get : option Esh.Instance -> py Cloud pyobj) (metadata : pyobj) (cl : Cloud)
    (errors : Errors) :
  ex_get_metadata d = Some get ->
  get (esh core_instance) (cloud s) = (Returned metadata, cl) ->
  InstanceSerializer core_instance metadata = inl errors ->
  set_instance_from_metadata d core_instance s =
  (Returned core_instance,
   {| instances := instances s; next_pk := next_pk s;
      machine_tables := machine_tables s; cloud := cl;
      logs := (logs s ++ [Log WARN "Encountered errors serializing metadata:%s"
                                [LErrors errors]])%list |}).
Proof.
  intros Hd Hg Hser. unfold set_instance_from_metadata. rewrite Hd.
  unfold bind, on_cloud. rewrite Hg, Hser. reflexivity.
Qed.

Lemma set_instance_from_metadata_invalid_witness :
  fst (@set_instance_from_metadata CoreSamples.externals CoreSamples.metadata_driver
         CoreSamples.row1 CoreSamples.site) = Returned CoreSamples.row1 /\
  instances (snd (@set_instance_from_metadata CoreSamples.externals
                    CoreSamples.metadata_driver CoreSamples.row1 CoreSamples.site)) =
    [CoreSamples.row1; CoreSamples.row2].
Proof.
  rewrite (@set_instance_from_metadata_invalid CoreSamples.externals
             CoreSamples.metadata_driver CoreSamples.row1 CoreSamples.site
             _ (PyStr "not a dict") ["ex_get_metadata"] "metadata is not a mapping"
             eq_refl eq_refl eq_refl).
  split; reflexivity.
Defined.

(** X16. On an instance with no esh attached, [esh_status], [esh_size],
    [esh_machine_name] and [esh_machine] answer ["Unknown"]; the sibling
    [hash_machine_alias], which has no such guard, raises [AttributeError]. *)
Theorem accessors_without_esh `{Externals} (self : Instance Machine Time) :
  esh self = None ->
  esh_status self = Returned (PyStr "Unknown") /\
  esh_size self = Returned (PyStr "Unknown") /\
  esh_machine_name self = Returned (PyStr "Unknown") /\
  esh_machine self = Returned (PyStr "Unknown") /\
  hash_machine_alias self = Raised (on_none "_node").
Proof.
  intros E. unfold esh_status, esh_size, esh_machine_name, esh_machine, hash_machine_alias.
  rewrite E. repeat split.
Qed.

Lemma accessors_without_esh_witness :
  @esh_size CoreSamples.externals CoreSamples.row1 = Returned (PyStr "Unknown") /\
  @hash_machine_alias CoreSamples.externals CoreSamples.row1 = Raised (on_none "_node").
Proof.
  destruct (@accessors_without_esh CoreSamples.externals CoreSamples.row1 eq_refl)
    as (_ & H2 & _ & _ & H5).
  split; [exact H2 | exact H5].
Defined.

End CoreInstanceProofs.

(* ===================================================================== *)
(** ** Further properties of update_instance_metadata *)
(* ===================================================================== *)

Module InstanceExtras.

Import Instance.

(** X17. When the connection has no [ex_set_metadata], the function returns
    [{}] after one info line and makes no driver call at all: the server is
    not renamed even if [data] carries a name. *)
Theorem update_without_ex_set_metadata {Cloud : Type} (conn : Connection Cloud)
    (esh_instance : string) (data : list (string * pyobj)) (replace : bool)
    (h : Host Cloud) :
  ex_set_metadata conn = None ->
  update_instance_metadata conn esh_instance data replace h =
  (Returned (PyDict []),
   {| cloud := cloud h;
      info_log := (info_log h ++
                   ["EshDriver " +:+ class_name conn
                    +:+ " does not have function 'ex_set_metadata'"])%list;
      driver_calls := driver_calls h |}).
Proof.
  intros Hno. unfold update_instance_metadata, hasattr_ex_set_metadata.
  rewrite Hno. reflexivity.
Qed.

Lemma update_without_ex_set_metadata_witness :
  let conn := {| class_name := "Eucalyptus_Esh_NodeDriver";
                 ex_set_metadata := None;
                 ex_set_server_name := Some Samples.rename_server |} in
  let r := update_instance_metadata conn "i-1" [("name", PyStr "new-name")] true
             Samples.fresh_host in
  fst r = Returned (PyDict []) /\
  driver_calls (snd r) = [] /\
  Samples.server_name (cloud (snd r)) = "old-name".
Proof.
  cbv zeta.
  rewrite (update_without_ex_set_metadata
             {| class_name := "Eucalyptus_Esh_NodeDriver";
                ex_set_metadata := None;
                ex_set_server_name := Some Samples.rename_server |}
             "i-1" [("name", PyStr "new-name")] true Samples.fresh_host eq_refl).
  repeat split.
Defined.

(** X18. An exception raised by [ex_set_server_name] is outside the [try]:
    it reaches the caller whatever its message, the ignorable phrase
    included, and [ex_set_metadata] is not called. *)
Theorem update_rename_failure_is_not_swallowed {Cloud : Type} (conn : Connection Cloud)
    (esh_instance : string) (data : list (string * pyobj)) (replace : bool)
    (h : Host Cloud)
    (rename : string -> pyobj -> py Cloud pyobj)
    (set_metadata : string -> list (string * pyobj) -> bool -> py Cloud pyobj)
    (e : exn) (c1 : Cloud) :
  truthy (dict_get data "name") = true ->
  ex_set_server_name conn = Some rename ->
  ex_set_metadata conn = Some set_metadata ->
  rename esh_instance (dict_get data "name") (cloud h) = (Raised e, c1) ->
  update_instance_metadata conn esh_instance data replace h =
  (Raised e,
   {| cloud := c1; info_log := info_log h;
      driver_calls :=
        (driver_calls h ++
         [call_ex_set_server_name esh_instance (dict_get data "name")])%list |}).
Proof.
  intros Hname Hren Hset Hr.
  unfold update_instance_metadata, hasattr_ex_set_metadata, set_name_if_given,
    conn_ex_set_server_name, bind, invoke.
  rewrite Hset, Hname, Hren. cbn [negb]. rewrite Hr. reflexivity.
Qed.

Lemma update_rename_failure_witness :
  let failing_rename := fun (_ : string) (_ : pyobj) =>
        @raise Samples.cloud_state pyobj
          (DriverError "BaseHTTPError" "backend incapable of performing the request") in
  let conn := {| class_name := "OpenStack_Esh_NodeDriver";
                 ex_set_metadata := Some Samples.incapable_set_metadata;
                 ex_set_server_name := Some failing_rename |} in
  let r := update_instance_metadata conn "i-1" [("name", PyStr "new-name")] true
             Samples.fresh_host in
  contains ignorable "backend incapable of performing the request" = true /\
  fst r = Raised (DriverError "BaseHTTPError"
                    "backend incapable of performing the request") /\
  driver_calls (snd r) = [call_ex_set_server_name "i-1" (PyStr "new-name")].
Proof.
  cbv zeta. split; [reflexivity|].
  rewrite (update_rename_failure_is_not_swallowed
             {| class_name := "OpenStack_Esh_NodeDriver";
                ex_set_metadata := Some Samples.incapable_set_metadata;
                ex_set_server_name :=
                  Some (fun (_ : string) (_ : pyobj) =>
                          @raise Samples.cloud_state pyobj
                            (DriverError "BaseHTTPError"
                               "backend incapable of performing the request")) |}
             "i-1" [("name", PyStr "new-name")] true Samples.fresh_host
             _ Samples.incapable_set_metadata
             (DriverError "BaseHTTPError" "backend incapable of performing the request")
             (cloud Samples.fresh_host) eq_refl eq_refl eq_refl eq_refl).
  split; reflexivity.
Defined.

(** X19. When [data] carries a truthy name but the connection has no
    [ex_set_server_name] (only [ex_set_metadata] was tested with [hasattr]),
    the function raises [AttributeError] before any driver call. *)
Theorem update_needs_ex_set_server_name {Cloud : Type} (conn : Connection Cloud)
    (esh_instance : string) (data : list (string * pyobj)) (replace : bool)
    (h : Host Cloud)
    (set_metadata : string -> list (string * pyobj) -> bool -> py Cloud pyobj) :
  truthy (dict_get data "name") = true ->
  ex_set_server_name conn = None ->
  ex_set_metadata conn = Some set_metadata ->
  update_instance_metadata conn esh_instance data replace h =
  (Raised (no_attribute conn "ex_set_server_name"), h).
Proof.
  intros Hname Hren Hset.
  unfold update_instance_metadata, hasattr_ex_set_metadata, set_name_if_given,
    conn_ex_set_server_name, bind.
  rewrite Hset, Hname, Hren. reflexivity.
Qed.

Lemma update_needs_ex_set_server_name_witness :
  let conn := {| class_name := "Dummy_NodeDriver";
                 ex_set_metadata := Some Samples.incapable_set_metadata;
                 ex_set_server_name := None |} in
  update_instance_metadata conn "i-1" [("name", PyStr "new-name")] true
    Samples.fresh_host =
  (Raised (AttributeError "'Dummy_NodeDriver' object has no attribute 'ex_set_server_name'"),
   Samples.fresh_host).
Proof.
  cbv zeta.
  apply (update_needs_ex_set_server_name
           {| class_name := "Dummy_NodeDriver";
              ex_set_metadata := Some Samples.incapable_set_metadata;
              ex_set_server_name := None |}
           "i-1" [("name", PyStr "new-name")] true Samples.fresh_host
           Samples.incapable_set_metadata eq_refl eq_refl eq_refl).
Defined.

(** X20. Without a truthy name in [data], the only driver call is
    [ex_set_metadata], with the instance, [data] and [replace] as given;
    whether the connection has [ex_set_server_name] does not matter, and
    what the call returns is returned as it is. *)
Theorem update_without_name_calls_once {Cloud : Type} (conn : Connection Cloud)
    (esh_instance : string) (data : list (string * pyobj)) (replace : bool)
    (h : Host Cloud)
    (set_metadata : string -> list (string * pyobj) -> bool -> py Cloud pyobj)
    (v : pyobj) (c1 : Cloud) :
  truthy (dict_get data "name") = false ->
  ex_set_metadata conn = Some set_metadata ->
  set_metadata esh_instance data replace (cloud h) = (Returned v, c1) ->
  update_instance_metadata conn esh_instance data replace h =
  (Returned v,
   {| cloud := c1; info_log := info_log h;
      driver_calls :=
        (driver_calls h ++ [call_ex_set_metadata esh_instance data replace])%list |}).
Proof.
  intros Hname Hset Hs.
  unfold update_instance_metadata, hasattr_ex_set_metadata, set_name_if_given,
    conn_ex_set_metadata, bind, try_except, invoke, ret.
  rewrite Hset, Hname. cbn [negb cloud]. rewrite Hs. reflexivity.
Qed.

Lemma update_without_name_witness :
  let store := fun (_ : string) (data : list (string * pyobj)) (_ : bool) =>
        fun c : Samples.cloud_state =>
          (Returned (PyDict data),
           {| Samples.server_name := Samples.server_name c; Samples.metadata := data |}) in
  let conn := {| class_name := "OpenStack_Esh_NodeDriver";
                 ex_set_metadata := Some store;
                 ex_set_server_name := None |} in
  let r := update_instance_metadata conn "i-1" [("tmp_status", PyStr "")] false
             Samples.fresh_host in
  fst r = Returned (PyDict [("tmp_status", PyStr "")]) /\
  driver_calls (snd r) = [call_ex_set_metadata "i-1" [("tmp_status", PyStr "")] false].
Proof.
  cbv zeta.
  rewrite (update_without_name_calls_once
             {| class_name := "OpenStack_Esh_NodeDriver";
                ex_set_metadata :=
                  Some (fun (_ : string) (data : list (string * pyobj)) (_ : bool) =>
                          fun c : Samples.cloud_state =>
                            (Returned (PyDict data),
                             {| Samples.server_name := Samples.server_name c;
                                Samples.metadata := data |}));
                ex_set_server_name := None |}
             "i-1" [("tmp_status", PyStr "")] false Samples.fresh_host _
             (PyDict [("tmp_status", PyStr "")])
             {| Samples.server_name := "old-name";
                Samples.metadata := [("tmp_status", PyStr "")] |}
             eq_refl eq_refl eq_refl).
  split; reflexivity.
Defined.

(** X21. With a truthy name and both calls returning, the rename comes
    first, [ex_set_metadata] then receives [data] whole (the name is still in
    it), and its result is the result of the function. *)
Theorem update_with_name_calls_both {Cloud : Type} (conn : Connection Cloud)
    (esh_instance : string) (data : list (string * pyobj)) (replace : bool)
    (h : Host Cloud)
    (rename : string -> pyobj -> py Cloud pyobj)
    (set_metadata : string -> list (string * pyobj) -> bool -> py Cloud pyobj)
    (x v : pyobj) (c1 c2 : Cloud) :
  truthy (dict_get data "name") = true ->
  ex_set_server_name conn = Some rename ->
  ex_set_metadata conn = Some set_metadata ->
  rename esh_instance (dict_get data "name") (cloud h) = (Returned x, c1) ->
  set_metadata esh_instance data replace c1 = (Returned v, c2) ->
  update_instance_metadata conn esh_instance data replace h =
  (Returned v,
   {| cloud := c2; info_log := info_log h;
      driver_calls :=
        (driver_calls h ++
         [ call_ex_set_server_name esh_instance (dict_get data "name");
           call_ex_set_metadata esh_instance data replace ])%list |}).
Proof.
  intros Hname Hren Hset Hr Hs.
  unfold update_instance_metadata, hasattr_ex_set_metadata, set_name_if_given,
    conn_ex_set_server_name, conn_ex_set_metadata, bind, try_except, invoke.
  rewrite Hset, Hname, Hren. cbn [negb]. rewrite Hr. cbn [cloud]. rewrite Hs.
  cbn [info_log driver_calls]. rewrite <- app_assoc. reflexivity.
Qed.

Lemma update_with_name_witness :
  let store := fun (_ : string) (data : list (string * pyobj)) (_ : bool) =>
        fun c : Samples.cloud_state =>
          (Returned (PyDict data),
           {| Samples.server_name := Samples.server_name c; Samples.metadata := data |}) in
  let conn := {| class_name := "OpenStack_Esh_NodeDriver";
                 ex_set_metadata := Some store;
                 ex_set_server_name := Some Samples.rename_server |} in
  let r := update_instance_metadata conn "i-1" [("name", PyStr "new-name")] true
             Samples.fresh_host in
  fst r = Returned (PyDict [("name", PyStr "new-name")]) /\
  cloud (snd r) = {| Samples.server_name := "new-name";
                     Samples.metadata := [("name", PyStr "new-name")] |}.
Proof.
  cbv zeta.
  rewrite (update_with_name_calls_both
             {| class_name := "OpenStack_Esh_NodeDriver";
                ex_set_metadata :=
                  Some (fun (_ : string) (data : list (string * pyobj)) (_ : bool) =>
                          fun c : Samples.cloud_state =>
                            (Returned (PyDict data),
                             {| Samples.server_name := Samples.server_name c;
                                Samples.metadata := data |}));
                ex_set_server_name := Some Samples.rename_server |}
             "i-1" [("name", PyStr "new-name")] true Samples.fresh_host _ _
             PyNone (PyDict [("name", PyStr "new-name")])
             {| Samples.server_name := "new-name"; Samples.metadata := [] |}
             {| Samples.server_name := "new-name";
                Samples.metadata := [("name", PyStr "new-name")] |}
             eq_refl eq_refl eq_refl eq_refl eq_refl).
  split; reflexivity.
Defined.

End InstanceExtras.

(* ===================================================================== *)
(** ** Further properties of the cleaning entry points *)
(* ===================================================================== *)

Module CleanExtras.

Import Clean CleanProofs CleanTerms.

(** X22. [remove_atmo_data] never returns: on every path, mounted or not,
    dry run or not, it raises and hands back the world it was given. *)
Theorem remove_atmo_data_always_raises `{Matchers} (path : string) (dry_run : bool)
    (w : World) :
  exists e, remove_atmo_data path dry_run w = (Raised e, w).
Proof.
  destruct (check_mounted path w) eqn:Hm.
  - exists not_callable. apply atmo_data_mounted, Hm.
  - exists (expected_mounted path). apply atmo_data_unmounted, Hm.
Qed.

(** X23. On a mounted path [remove_user_data] and [remove_vm_specific_data]
    return [None] after calling the five primitives once each, in the order
    of [_perform_cleaning], with their own tables. *)
Theorem mounted_profiles_call_five_stages `{Matchers} (path : string) (dry_run : bool)
    (w : World) :
  check_mounted path w = true ->
  (fst (remove_user_data path dry_run w) = Returned PyNone /\
   calls (snd (remove_user_data path dry_run w)) =
     (calls w ++
      [ call_remove_files ["home/*"] path dry_run;
        call_overwrite_files [""] path dry_run;
        call_remove_line_in_files [] path dry_run;
        call_replace_line_in_files user_data_replace_table path dry_run;
        call_remove_multiline_in_files [] path dry_run ])%list) /\
  (fst (remove_vm_specific_data path dry_run w) = Returned PyNone /\
   calls (snd (remove_vm_specific_data path dry_run w)) =
     (calls w ++
      [ call_remove_files vm_remove_table path dry_run;
        call_overwrite_files vm_overwrite_table path dry_run;
        call_remove_line_in_files [] path dry_run;
        call_replace_line_in_files [] path dry_run;
        call_remove_multiline_in_files [] path dry_run ])%list).
Proof.
  intros Hm. split; split.
  - rewrite (user_data_mounted path dry_run w Hm). reflexivity.
  - apply user_data_order, Hm.
  - rewrite (vm_specific_data_mounted path dry_run w Hm). reflexivity.
  - apply vm_specific_data_order, Hm.
Qed.

Lemma mounted_profiles_witness :
  calls (snd (@remove_vm_specific_data Samples.matchers "/mnt" true Samples.mounted_world)) =
    [ call_remove_files vm_remove_table "/mnt" true;
      call_overwrite_files vm_overwrite_table "/mnt" true;
      call_remove_line_in_files [] "/mnt" true;
      call_replace_line_in_files [] "/mnt" true;
      call_remove_multiline_in_files [] "/mnt" true ].
Proof.
  apply (@mounted_profiles_call_five_stages Samples.matchers "/mnt" true
           Samples.mounted_world eq_refl).
Defined.

(** X24. Whatever the entry point, the path and the flag, every primitive
    it calls is called with that very path and that very flag: a dry run
    never reaches a primitive as a real run, and no other mount point is
    ever named. *)
Theorem entry_points_pass_path_and_flag `{Matchers} (p : profile) (path : string)
    (dry_run : bool) (w : World) :
  exists made,
    calls (snd (run p path dry_run w)) = (calls w ++ made)%list /\
    Forall (fun c => call_target c = (path, dry_run)) made.
Proof.
  destruct (check_mounted path w) eqn:Hm; destruct p; unfold run.
  - eexists. split; [apply user_data_order, Hm|]. unfold five_calls.
    repeat (constructor; [reflexivity|]). constructor.
  - exists []. rewrite (atmo_data_mounted path dry_run w Hm). cbn [snd].
    rewrite app_nil_r. split; [reflexivity | constructor].
  - eexists. split; [apply vm_specific_data_order, Hm|]. unfold five_calls.
    repeat (constructor; [reflexivity|]). constructor.
  - exists []. rewrite (user_data_unmounted path dry_run w Hm). cbn [snd].
    rewrite app_nil_r. split; [reflexivity | constructor].
  - exists []. rewrite (atmo_data_unmounted path dry_run w Hm). cbn [snd].
    rewrite app_nil_r. split; [reflexivity | constructor].
  - exists []. rewrite (vm_specific_data_unmounted path dry_run w Hm). cbn [snd].
    rewrite app_nil_r. split; [reflexivity | constructor].
Qed.

End CleanExtras.
